(** * Product web API: controller, service, validation and data access

    A shallow embedding of the three layers of the product API
    (controllers/productController.js, services/productService.js,
    dataAccess/productData.js and the insert flow documented in readme.md),
    together with the parts of the JavaScript runtime, of the [validator]
    package, of the Express response object and of the Prisma client that
    the code relies on. *)

Set Warnings "-register-all".
From Stdlib Require Import Bool List String Ascii NArith ZArith Lia.
From Stdlib Require Import Decimal DecimalString DecimalPos DecimalN.
Import ListNotations.

Local Open Scope string_scope.
Local Open Scope N_scope.

(** ** Strings *)

Module Str.

Definition is_digit (c : ascii) : bool :=
  let n := N_of_ascii c in (48 <=? n) && (n <=? 57).

Definition is_nonzero_digit (c : ascii) : bool :=
  let n := N_of_ascii c in (49 <=? n) && (n <=? 57).

Fixpoint all (p : ascii -> bool) (s : string) : bool :=
  match s with
  | EmptyString => true
  | String c r => p c && all p r
  end.

Fixpoint any (p : ascii -> bool) (s : string) : bool :=
  match s with
  | EmptyString => false
  | String c r => p c || any p r
  end.

Definition is_empty (s : string) : bool :=
  match s with EmptyString => true | _ => false end.

(** [/^[0-9]+$/] *)
Definition all_digits (s : string) : bool :=
  negb (is_empty s) && all is_digit s.

Fixpoint rev_acc (s acc : string) : string :=
  match s with
  | EmptyString => acc
  | String c r => rev_acc r (String c acc)
  end.

Definition rev (s : string) : string := rev_acc s EmptyString.

Fixpoint drop_while (p : ascii -> bool) (s : string) : string :=
  match s with
  | EmptyString => EmptyString
  | String c r => if p c then drop_while p r else s
  end.

Fixpoint repeat (c : ascii) (n : nat) : string :=
  match n with
  | O => EmptyString
  | S k => String c (repeat c k)
  end.

(** [split_at c s] cuts [s] at the first occurrence of [c]: the text before
    it and, when [c] occurs, the text after it. *)
Fixpoint split_at (c : ascii) (s : string) : string * option string :=
  match s with
  | EmptyString => (EmptyString, None)
  | String a r =>
      if Ascii.eqb a c then (EmptyString, Some r)
      else let '(h, t) := split_at c r in (String a h, t)
  end.

(** Decimal digits of a natural number, ["0"] for zero. *)
Definition of_N (n : N) : string := NilEmpty.string_of_uint (N.to_uint n).

(** Value of a run of decimal digits; [None] when a character is not one. *)
Definition to_N (s : string) : option N :=
  option_map N.of_uint (NilEmpty.uint_of_string s).

End Str.

(** ** JavaScript numbers

    A number is an IEEE double, kept as the exact decimal value it has:
    [Finite neg m d] stands for [(-1)^neg * m / 10^d], which every double
    is.  [Double.round] takes a decimal to the double nearest to it. *)

Inductive number : Type :=
| NaN
| Infinity (neg : bool)
| Finite (neg : bool) (m : N) (d : N).

Module Num.

Definition zero : number := Finite false 0 0.

Definition of_N (n : N) : number := Finite false n 0.

(** Removes the factors of ten shared by the mantissa and the scale. *)
Fixpoint reduce (fuel : nat) (m d : N) : N * N :=
  match fuel with
  | O => (m, d)
  | S k =>
      if (d =? 0) then (m, d)
      else if (m mod 10 =? 0) then reduce k (m / 10) (d - 1)
      else (m, d)
  end.

Definition make (neg : bool) (m d : N) : number :=
  if m =? 0 then Finite neg 0 0
  else let '(m', d') := reduce (N.to_nat d) m d in Finite neg m' d'.

Definition eqb (x y : number) : bool :=
  match x, y with
  | NaN, NaN => true
  | Infinity a, Infinity b => Bool.eqb a b
  | Finite a m d, Finite b m' d' => Bool.eqb a b && (m =? m') && (d =? d')
  | _, _ => false
  end.

End Num.

(** *** Rounding to binary64

    A double is [M * 2^E] with [M < 2^53] and [-1074 <= E <= 971]; a value
    is rounded to the nearest one, ties to the even [M], and a value that
    rounds beyond the largest double becomes an infinity. *)

Module Double.

(** [p / q] rounded to the nearest integer, ties to even. *)
Definition round_div (p q : N) : N :=
  let f := p / q in
  match 2 * (p mod q) ?= q with
  | Lt => f
  | Gt => f + 1
  | Eq => if N.even f then f else f + 1
  end.

(** [2^l <= p / q] *)
Definition at_least_pow2 (p q : N) (l : Z) : bool :=
  match l with
  | Zneg k => q <=? p * 2 ^ Npos k
  | _ => q * 2 ^ Z.to_N l <=? p
  end.

(** The integer part of the binary logarithm of [p / q]. *)
Definition log2_ratio (p q : N) : Z :=
  let l := (Z.of_N (N.log2 p) - Z.of_N (N.log2 q))%Z in
  if at_least_pow2 p q l then l else (l - 1)%Z.

(** [M * 2^E] as a decimal. *)
Definition of_binary (neg : bool) (M : N) (E : Z) : number :=
  match E with
  | Zneg k => Num.make neg (M * 5 ^ Npos k) (Npos k)
  | _ => Num.make neg (M * 2 ^ Z.to_N E) 0
  end.

(** The double nearest to [p / q], for [p] and [q] positive. *)
Definition round_ratio (neg : bool) (p q : N) : number :=
  let E := Z.max (log2_ratio p q - 52) (-1074) in
  let M := match E with
           | Zneg k => round_div (p * 2 ^ Npos k) q
           | _ => round_div p (q * 2 ^ Z.to_N E)
           end in
  let '(M', E') := if M =? 2 ^ 53 then (2 ^ 52, (E + 1)%Z) else (M, E) in
  if (971 <? E')%Z then Infinity neg else of_binary neg M' E'.

(** The double nearest to [m * 10^e].  With [l] the binary logarithm of
    [m], the value is at least [10^(l/4 + e)] and below [10^((l+3)/3 + e)],
    as [2^3 < 10 < 2^4]: a value of at least [10^311] is beyond every
    double, one below [10^-331] is below half the smallest. *)
Definition round (neg : bool) (m : N) (e : Z) : number :=
  if m =? 0 then Finite neg 0 0
  else
    let l := Z.of_N (N.log2 m) in
    if (310 <? l / 4 + e)%Z then Infinity neg
    else if ((l + 3) / 3 + e <? -330)%Z then Finite neg 0 0
    else match e with
         | Zneg k => round_ratio neg m (10 ^ Npos k)
         | _ => round_ratio neg (m * 10 ^ Z.to_N e) 1
         end.

End Double.

(** *** Number::toString (radix 10) *)

Module NumberToString.

Definition strip_trailing_zeros (s : string) : string :=
  Str.rev (Str.drop_while (Ascii.eqb "0") (Str.rev s)).

Definition exponent_part (e : Z) : string :=
  ("e" ++ (if (e <? 0)%Z then "-" else "+") ++ Str.of_N (Z.abs_N e))%string.

(** The digits [s] and the position [n] of the point, for the [k]-digit
    decimal [s * 10^(n-k)] that reads back as the number [m / 10^d], if
    there is one: the decimal just below the number or the one just above,
    the nearer of the two when both read back as it. *)
Definition candidate (target : number) (m d : N) (k : nat) : option (N * Z) :=
  let L := String.length (Str.of_N m) in
  let n0 := (Z.of_nat L - Z.of_N d)%Z in
  if (L <=? k)%nat then Some (m, n0)
  else
    let unit := 10 ^ N.of_nat (L - k) in
    let lo := m / unit in
    let r := m mod unit in
    if r =? 0 then Some (lo, n0)
    else
      let '(hi, hi_n) :=
        if lo + 1 =? 10 ^ N.of_nat k
        then (10 ^ N.of_nat (k - 1), (n0 + 1)%Z)
        else (lo + 1, n0) in
      let ok_lo := Num.eqb (Double.round false lo (n0 - Z.of_nat k)) target in
      let ok_hi := Num.eqb (Double.round false hi (hi_n - Z.of_nat k)) target in
      match ok_lo, ok_hi with
      | true, true =>
          match 2 * r ?= unit with
          | Lt => Some (lo, n0)
          | Gt => Some (hi, hi_n)
          | Eq => if N.even lo then Some (lo, n0) else Some (hi, hi_n)
          end
      | true, false => Some (lo, n0)
      | false, true => Some (hi, hi_n)
      | false, false => None
      end.

(** The shortest decimal that reads back as the number: the first length
    that has a candidate.  Seventeen digits suffice for a double; a value
    that is not a double keeps its own digits. *)
Fixpoint shortest (target : number) (m d : N) (lengths : list nat) : N * Z :=
  match lengths with
  | [] => (m, (Z.of_nat (String.length (Str.of_N m)) - Z.of_N d)%Z)
  | k :: rest =>
      match candidate target m d k with
      | Some c => c
      | None => shortest target m d rest
      end
  end.

(** The text of a positive value [m / 10^d]. *)
Definition positive_to_string (m d : N) : string :=
  let '(digits, n) := shortest (Num.make false m d) m d (seq 1 17) in
  let s := strip_trailing_zeros (Str.of_N digits) in
  let k := String.length s in
  if ((Z.of_nat k <=? n) && (n <=? 21))%Z then
    (s ++ Str.repeat "0" (Z.to_nat n - k))%string
  else if ((0 <? n) && (n <=? 21))%Z then
    (substring 0 (Z.to_nat n) s ++ "." ++ substring (Z.to_nat n) (k - Z.to_nat n) s)%string
  else if ((-6 <? n) && (n <=? 0))%Z then
    ("0." ++ Str.repeat "0" (Z.to_nat (- n)) ++ s)%string
  else if (k =? 1)%nat then
    (s ++ exponent_part (n - 1))%string
  else
    (substring 0 1 s ++ "." ++ substring 1 (k - 1) s ++ exponent_part (n - 1))%string.

Definition to_string (x : number) : string :=
  match x with
  | NaN => "NaN"
  | Infinity neg => if neg then "-Infinity" else "Infinity"
  | Finite neg m d =>
      if m =? 0 then "0"
      else ((if neg then "-" else EmptyString) ++ positive_to_string m d)%string
  end.

End NumberToString.

(** *** StringToNumber *)

Module StringToNumber.

(** White space and line terminators within ASCII. *)
Definition is_ws (c : ascii) : bool :=
  match N_of_ascii c with
  | 9 | 10 | 11 | 12 | 13 | 32 => true
  | _ => false
  end.

Definition trim (s : string) : string :=
  Str.rev (Str.drop_while is_ws (Str.rev (Str.drop_while is_ws s))).

Definition digit_value (radix : N) (c : ascii) : option N :=
  let n := N_of_ascii c in
  let v := if (48 <=? n) && (n <=? 57) then Some (n - 48)
           else if (97 <=? n) && (n <=? 102) then Some (n - 87)
           else if (65 <=? n) && (n <=? 70) then Some (n - 55)
           else None in
  match v with
  | Some k => if k <? radix then Some k else None
  | None => None
  end.

Fixpoint radix_value (radix : N) (s : string) (acc : N) : option N :=
  match s with
  | EmptyString => Some acc
  | String c r =>
      match digit_value radix c with
      | Some k => radix_value radix r (acc * radix + k)
      | None => None
      end
  end.

(** [0x..], [0o..], [0b..] literals. *)
Definition non_decimal (s : string) : option N :=
  match s with
  | String z (String p r) =>
      if Ascii.eqb z "0" then
        let radix :=
          if Ascii.eqb p "x" || Ascii.eqb p "X" then Some 16
          else if Ascii.eqb p "o" || Ascii.eqb p "O" then Some 8
          else if Ascii.eqb p "b" || Ascii.eqb p "B" then Some 2
          else None in
        match radix, r with
        | Some b, String _ _ => radix_value b r 0
        | _, _ => None
        end
      else None
  | _ => None
  end.

Definition split_sign (s : string) : bool * string :=
  match s with
  | String c r =>
      if Ascii.eqb c "-" then (true, r)
      else if Ascii.eqb c "+" then (false, r)
      else (false, s)
  | EmptyString => (false, s)
  end.

(** Cuts at the first [e] or [E]. *)
Fixpoint split_exponent (s : string) : string * option string :=
  match s with
  | EmptyString => (EmptyString, None)
  | String a r =>
      if Ascii.eqb a "e" || Ascii.eqb a "E" then (EmptyString, Some r)
      else let '(h, t) := split_exponent r in (String a h, t)
  end.

Definition exponent (t : option string) : option Z :=
  match t with
  | None => Some 0%Z
  | Some t =>
      let '(neg, ds) := split_sign t in
      if Str.all_digits ds then
        match Str.to_N ds with
        | Some e => Some (if neg then (- Z.of_N e)%Z else Z.of_N e)
        | None => None
        end
      else None
  end.

(** Unsigned decimal literal: mantissa and power of ten. *)
Definition unsigned_decimal (s : string) : option (N * Z) :=
  let '(mant, t) := split_exponent s in
  let '(ip, fp) := Str.split_at "." mant in
  let fp' := match fp with Some f => f | None => EmptyString end in
  let shape :=
    Str.all Str.is_digit ip && Str.all Str.is_digit fp'
    && negb (Str.is_empty ip && Str.is_empty fp') in
  if shape then
    match Str.to_N (ip ++ fp'), exponent t with
    | Some m, Some e => Some (m, (e - Z.of_nat (String.length fp'))%Z)
    | _, _ => None
    end
  else None.

Definition of_string (s : string) : number :=
  let t := trim s in
  if Str.is_empty t then Num.zero
  else match non_decimal t with
  | Some n => Double.round false n 0
  | None =>
      let '(neg, u) := split_sign t in
      if String.eqb u "Infinity" then Infinity neg
      else match unsigned_decimal u with
      | Some (m, e) => Double.round neg m e
      | None => NaN
      end
  end.

End StringToNumber.

(** ** Exceptions *)

Inductive error : Type :=
| TypeError (msg : string)
| Error (msg : string).

(** [err.message] *)
Definition message (e : error) : string :=
  match e with
  | TypeError m => m
  | Error m => m
  end.

Inductive outcome (A : Type) : Type :=
| Return (a : A)
| Throw (e : error).

Arguments Return {A} a.
Arguments Throw {A} e.

(** ** JavaScript values *)

Inductive value : Type :=
| VUndefined
| VNull
| VBool (b : bool)
| VNum (n : number)
| VStr (s : string)
| VArr (elems : list value)
| VObj (fields : list (string * value)).

(** The values that are not objects. *)
Inductive primitive : Type :=
| PUndefined
| PNull
| PBool (b : bool)
| PNum (n : number)
| PStr (s : string).

Module JS.

(** [typeof] *)
Inductive type_tag : Type :=
| TUndefined | TObject | TBoolean | TNumber | TString.

Definition typeof (v : value) : type_tag :=
  match v with
  | VUndefined => TUndefined
  | VNull => TObject
  | VBool _ => TBoolean
  | VNum _ => TNumber
  | VStr _ => TString
  | VArr _ => TObject
  | VObj _ => TObject
  end.

Fixpoint lookup (k : string) (fields : list (string * value)) : option value :=
  match fields with
  | [] => None
  | (k', v) :: r => if String.eqb k k' then Some v else lookup k r
  end.

(** ToString of a primitive. *)
Definition text_of_primitive (p : primitive) : string :=
  match p with
  | PUndefined => "undefined"
  | PNull => "null"
  | PBool b => if b then "true" else "false"
  | PNum n => NumberToString.to_string n
  | PStr s => s
  end.

(** ToNumber of a primitive. *)
Definition ToNumber (p : primitive) : number :=
  match p with
  | PUndefined => NaN
  | PNull => Num.zero
  | PBool b => if b then Num.of_N 1 else Num.zero
  | PNum n => n
  | PStr s => StringToNumber.of_string s
  end.

Definition cannot_convert : error :=
  TypeError "Cannot convert object to primitive value".

(** ToPrimitive, for the values [JSON.parse] builds.  An array answers the
    texts of its elements joined with commas, [null] and [undefined]
    elements being empty.  An object answers [[object Object]] through the
    [toString] it inherits; a property of its own named [toString] hides
    that method, none is then callable, and the conversion throws. *)
Fixpoint ToPrimitive (v : value) : outcome primitive :=
  match v with
  | VUndefined => Return PUndefined
  | VNull => Return PNull
  | VBool b => Return (PBool b)
  | VNum n => Return (PNum n)
  | VStr s => Return (PStr s)
  | VArr l =>
      match
        (fix join (l : list value) : outcome string :=
           match l with
           | [] => Return EmptyString
           | x :: r =>
               match
                 match x with
                 | VUndefined | VNull => Return EmptyString
                 | _ =>
                     match ToPrimitive x with
                     | Return p => Return (text_of_primitive p)
                     | Throw e => Throw e
                     end
                 end
               with
               | Throw e => Throw e
               | Return a =>
                   match r with
                   | [] => Return a
                   | _ :: _ =>
                       match join r with
                       | Return b => Return (a ++ "," ++ b)%string
                       | Throw e => Throw e
                       end
                   end
               end
           end) l
      with
      | Return s => Return (PStr s)
      | Throw e => Throw e
      end
  | VObj fields =>
      match lookup "toString" fields with
      | Some _ => Throw cannot_convert
      | None => Return (PStr "[object Object]")
      end
  end.

(** ToString, as performed by [v + ''] and by a template literal. *)
Definition ToString (v : value) : outcome string :=
  match ToPrimitive v with
  | Return p => Return (text_of_primitive p)
  | Throw e => Throw e
  end.

(** [Number(v)] *)
Definition Number (v : value) : outcome number :=
  match ToPrimitive v with
  | Return p => Return (ToNumber p)
  | Throw e => Throw e
  end.

(** ToBoolean: the test of an [if]. *)
Definition truthy (v : value) : bool :=
  match v with
  | VUndefined | VNull => false
  | VBool b => b
  | VNum n => match n with NaN => false | Infinity _ => true | Finite _ m _ => negb (m =? 0) end
  | VStr s => negb (Str.is_empty s)
  | VArr _ | VObj _ => true
  end.

End JS.

(** ** Effects: the console, the response and the ORM *)

(** Sequencing of steps that may throw. *)
Definition and_then {A B} (o : outcome A) (k : A -> outcome B) : outcome B :=
  match o with
  | Return a => k a
  | Throw e => Throw e
  end.

Notation "x <~ o ;; k" := (and_then o (fun x => k))
  (at level 61, o at next level, right associativity).

(** The calls made on the Prisma client: [prisma.product.findMany()],
    [findMany({where: {k: v}})], [findUnique({where: {k: v}})] and
    [create({data: {...}})]. *)
Inductive request : Type :=
| FindMany (where_ : option (string * value))
| FindUnique (where_ : string * value)
| Create (data : list (string * value)).

(** What Express has put on the wire. *)
Inductive payload : Type :=
| Json (v : value)
| Text (s : string).

Record sent_response : Type := mkSent {
  status : Z;
  reason_phrase : option string;
  body : payload
}.

(** The response object of Express, a dependency of the repository: the
    fields the handlers assign and the response once it has been sent
    ([headersSent] is [sent <> None]). *)
Record response : Type := mkResponse {
  statusCode : Z;
  statusMessage : option string;
  sent : option sent_response
}.

Definition fresh_response : response :=
  {| statusCode := 200; statusMessage := None; sent := None |}.

(** The state a request runs in: the storage behind the ORM, the ORM calls
    issued so far, the lines written to the console and the response. *)
Record world (DB : Type) : Type := mkWorld {
  store : DB;
  queries : list request;
  console : list string;
  res : response
}.

Arguments mkWorld {DB} _ _ _ _.
Arguments store {DB} _.
Arguments queries {DB} _.
Arguments console {DB} _.
Arguments res {DB} _.

Definition M (DB A : Type) : Type := world DB -> outcome A * world DB.

Definition ret {DB A} (a : A) : M DB A := fun w => (Return a, w).

Definition throw {DB A} (e : error) : M DB A := fun w => (Throw e, w).

Definition bind {DB A B} (c : M DB A) (k : A -> M DB B) : M DB B :=
  fun w =>
    match c w with
    | (Return a, w') => k a w'
    | (Throw e, w') => (Throw e, w')
    end.

(** [try { c } catch (err) { h err }] *)
Definition try_catch {DB A} (c : M DB A) (h : error -> M DB A) : M DB A :=
  fun w =>
    match c w with
    | (Return a, w') => (Return a, w')
    | (Throw e, w') => h e w'
    end.

Definition lift {DB A} (o : outcome A) : M DB A := fun w => (o, w).

Notation "x <- c ;; k" := (bind c (fun x => k))
  (at level 61, c at next level, right associativity).
Notation "c ;;; k" := (bind c (fun _ => k))
  (at level 61, right associativity).

(** [a && b] on conditions that may throw: [b] runs only when [a] holds. *)
Definition andM {DB} (a b : M DB bool) : M DB bool :=
  x <- a ;; if x then b else ret false.

Notation "a &&& b" := (andM a b) (at level 40, left associativity).

(** [console.log(a)] and [console.log(a, b)]: the arguments on one line,
    separated by a space. *)
Definition logged {DB} (line : string) (w : world DB) : world DB :=
  mkWorld (store w) (queries w) (console w ++ [line]) (res w).

Definition console_log {DB} (line : string) : M DB unit :=
  fun w => (Return tt, logged line w).

Definition console_log2 {DB} (a b : string) : M DB unit :=
  console_log (a ++ " " ++ b).

(** [o.k]: reading a property of [null] or [undefined] throws, a property
    that is absent reads as [undefined]. *)
Definition get_prop (o : value) (k : string) : outcome value :=
  match o with
  | VUndefined =>
      Throw (TypeError ("Cannot read properties of undefined (reading '" ++ k ++ "')"))
  | VNull =>
      Throw (TypeError ("Cannot read properties of null (reading '" ++ k ++ "')"))
  | VObj fields =>
      match JS.lookup k fields with
      | Some v => Return v
      | None => Return VUndefined
      end
  | _ => Return VUndefined
  end.

(** ** The Express response *)

Definition with_response {DB} (r : response) (w : world DB) : world DB :=
  mkWorld (store w) (queries w) (console w) r.

Module Res.

Definition headers_sent_error : error :=
  Error "Cannot set headers after they are sent to the client".

(** [res.statusMessage = m] *)
Definition set_statusMessage {DB} (m : string) : M DB unit :=
  fun w =>
    let r := res w in
    (Return tt, with_response (mkResponse (statusCode r) (Some m) (sent r)) w).

(** [res.status(code)] *)
Definition set_status {DB} (code : Z) : M DB unit :=
  fun w =>
    let r := res w in
    (Return tt, with_response (mkResponse code (statusMessage r) (sent r)) w).

(** Sending a body: refused once a response has been sent. *)
Definition send_payload {DB} (p : payload) : M DB unit :=
  fun w =>
    let r := res w in
    match sent r with
    | Some _ => (Throw headers_sent_error, w)
    | None =>
        (Return tt,
         with_response
           (mkResponse (statusCode r) (statusMessage r)
              (Some (mkSent (statusCode r) (statusMessage r) p))) w)
    end.

(** [res.json(v)] *)
Definition json {DB} (v : value) : M DB unit := send_payload (Json v).

(** [res.send(text)] *)
Definition send {DB} (s : string) : M DB unit := send_payload (Text s).

End Res.

(** ** The [validator] package

    The checks of the npm package [validator], a dependency of the
    repository, that the product validator calls, with the options it
    passes.  Every check first asserts that its argument is a string and
    throws a [TypeError] otherwise. *)

Module Validator.

Definition type_name (v : value) : string :=
  match v with
  | VUndefined => "undefined"
  | VNull => "null"
  | VBool _ => "boolean"
  | VNum _ => "number"
  | VStr _ => "string"
  | VArr _ => "Array"
  | VObj _ => "Object"
  end.

Definition assertString (v : value) : outcome string :=
  match v with
  | VStr s => Return s
  | _ => Throw (TypeError ("Expected a string but received a " ++ type_name v))
  end.

(** [isNumeric(str, {no_symbols: true})]: the pattern [/^[0-9]+$/]. *)
Definition isNumeric (v : value) : outcome bool :=
  match assertString v with
  | Return s => Return (Str.all_digits s)
  | Throw e => Throw e
  end.

(** [isEmpty(str)]: [str.length === 0]. *)
Definition isEmpty (v : value) : outcome bool :=
  match assertString v with
  | Return s => Return (Str.is_empty s)
  | Throw e => Throw e
  end.

(** [\d{3}] groups, each led by the thousands separator. *)
Fixpoint thousands_groups (s : string) : bool :=
  match s with
  | EmptyString => true
  | String "," (String a (String b (String c r))) =>
      Str.is_digit a && Str.is_digit b && Str.is_digit c && thousands_groups r
  | _ => false
  end.

(** [[1-9]\d{0,2}(,\d{3})*] *)
Definition with_separators (s : string) : bool :=
  match s with
  | String a r =>
      Str.is_nonzero_digit a
      && (thousands_groups r
          || match r with
             | String b r1 => Str.is_digit b
                 && (thousands_groups r1
                     || match r1 with
                        | String c r2 => Str.is_digit c && thousands_groups r2
                        | EmptyString => false
                        end)
             | EmptyString => false
             end)
  | EmptyString => false
  end.

(** The optional whole amount: [0], or [[1-9]\d*], or the form with
    separators. *)
Definition whole_amount (s : string) : bool :=
  match s with
  | EmptyString => true
  | String a r =>
      String.eqb s "0"
      || (Str.is_nonzero_digit a && Str.all Str.is_digit r)
      || with_separators s
  end.

(** [(\.\d{2})?] *)
Definition decimal_amount (t : option string) : bool :=
  match t with
  | None => true
  | Some (String a (String b EmptyString)) => Str.is_digit a && Str.is_digit b
  | Some _ => false
  end.

(** The default currency pattern with [allow_negatives: false]: an optional
    [$], an optional whole amount, an optional decimal amount, and at least
    one digit in the text (the look-ahead [(?=.*\d)]; the look-ahead
    [(?!-? )] is implied, the pattern matching neither a space nor a
    sign). *)
Definition currency_pattern (s : string) : bool :=
  let s1 := match s with
            | String c r => if Ascii.eqb c "$" then r else s
            | EmptyString => s
            end in
  let '(w, t) := Str.split_at "." s1 in
  Str.any Str.is_digit s && whole_amount w && decimal_amount t.

(** [isCurrency(str, {allow_negatives: false})] *)
Definition isCurrency (v : value) : outcome bool :=
  match assertString v with
  | Return s => Return (currency_pattern s)
  | Throw e => Throw e
  end.

(** The replacement [escape] makes for one character.  The package applies
    eight global replacements in turn, the one for [&] first; none of them
    produces a character that a later one rewrites, so together they are
    this character-wise substitution. *)
Definition entity (c : ascii) : string :=
  match N_of_ascii c with
  | 38 => "&amp;"
  | 34 => "&quot;"
  | 39 => "&#x27;"
  | 60 => "&lt;"
  | 62 => "&gt;"
  | 47 => "&#x2F;"
  | 92 => "&#x5C;"
  | 96 => "&#96;"
  | _ => String c EmptyString
  end.

Fixpoint escape_string (s : string) : string :=
  match s with
  | EmptyString => EmptyString
  | String c r => (entity c ++ escape_string r)%string
  end.

(** [escape(str)] *)
Definition escape (v : value) : outcome string :=
  match assertString v with
  | Return s => Return (escape_string s)
  | Throw e => Throw e
  end.

End Validator.

(** ** models/product.js *)

Record Product : Type := mkProduct {
  id : number;
  category_id : number;
  product_name : value;
  product_description : value;
  product_stock : number;
  product_price : number
}.

(** [function Product(id = 'undefined', cat = 'undefined', name, desc,
    stock, price)]: a default replaces an argument that is [undefined]. *)
Definition default_param (v : value) : value :=
  match v with
  | VUndefined => VStr "undefined"
  | _ => v
  end.

Definition new_Product (id_ cat name desc stock price : value) : outcome Product :=
  i <~ JS.Number (default_param id_) ;;
  c <~ JS.Number (default_param cat) ;;
  s <~ JS.Number stock ;;
  p <~ JS.Number price ;;
  Return {| id := i;
            category_id := c;
            product_name := name;
            product_description := desc;
            product_stock := s;
            product_price := p |}.

(** ** validators/productValidator.js *)

Module ProductValidator.

Section WithStorage.
Context {DB : Type}.

(** [p + ''] *)
Definition as_text (v : value) : outcome value :=
  s <~ JS.ToString v ;; Return (VStr s).

Definition numeric_field (formProduct : value) (k : string) : M DB bool :=
  v <- lift (get_prop formProduct k) ;;
  t <- lift (as_text v) ;;
  lift (Validator.isNumeric t).

Definition text_field (formProduct : value) (k : string) : M DB bool :=
  v <- lift (get_prop formProduct k) ;;
  e <- lift (Validator.isEmpty v) ;;
  ret (negb e).

Definition currency_field (formProduct : value) (k : string) : M DB bool :=
  v <- lift (get_prop formProduct k) ;;
  t <- lift (as_text v) ;;
  lift (Validator.isCurrency t).

(** The condition of the [if]: five checks joined by [&&]. *)
Definition checks (formProduct : value) : M DB bool :=
  numeric_field formProduct "category_id"
  &&& text_field formProduct "product_name"
  &&& text_field formProduct "product_description"
  &&& numeric_field formProduct "product_stock"
  &&& currency_field formProduct "product_price".

(** The result is [Some] product when validation passes and [None], the
    variable left [undefined], when it fails. *)
Definition validateNewProduct (formProduct : value) : M DB (option Product) :=
  (match formProduct with
   | VNull => console_log "validateNewProduct(): Parameter is null"
   | _ => ret tt
   end) ;;;
  ok <- checks formProduct ;;
  if ok then
    cat <- lift (get_prop formProduct "category_id") ;;
    name <- lift (get_prop formProduct "product_name") ;;
    name' <- lift (Validator.escape name) ;;
    desc <- lift (get_prop formProduct "product_description") ;;
    desc' <- lift (Validator.escape desc) ;;
    stock <- lift (get_prop formProduct "product_stock") ;;
    price <- lift (get_prop formProduct "product_price") ;;
    product <- lift (new_Product (VNum Num.zero) cat (VStr name') (VStr desc')
                       stock price) ;;
    ret (Some product)
  else
    console_log "validateNewProduct(): Validation failed" ;;;
    ret None.

End WithStorage.

End ProductValidator.

(** ** dataAccess/productData.js *)

(** The world once the call [q] has been made and storage has become [db]. *)
Definition queried {DB} (q : request) (db : DB) (w : world DB) : world DB :=
  mkWorld db (queries w ++ [q]) (console w) (res w).

Module ProductData.

Section WithPrisma.
Context {DB : Type}.

(** The Prisma client: what a call answers, or throws, and the storage
    after it. *)
Variable prisma : request -> DB -> outcome value * DB.

(** [await prisma.product.<call>(...)] *)
Definition call (q : request) : M DB value :=
  fun w =>
    let '(r, db) := prisma q (store w) in
    (r, queried q db w).

(** The shape the four functions share: a variable left [undefined], a
    [try] that assigns it the answer of the call, a [catch] that logs the
    message of the error, and the [return] of the variable. *)
Definition guarded (label : string) (q : request) : M DB value :=
  try_catch
    (call q)
    (fun err => console_log2 label (message err) ;;; ret VUndefined).

Definition getProducts : M DB value :=
  guarded "DB Error - get all products: " (FindMany None).

Definition getProductById (id_ : value) : M DB value :=
  guarded "DB Error - get product by id: " (FindUnique ("id", id_)).

Definition getProductsByCatId (catId : value) : M DB value :=
  guarded "DB Error - get products by category: "
    (FindMany (Some ("category_id", catId))).

(** The [data] object of [prisma.product.create]; the three fields handed
    to [Number] are numbers already. *)
Definition create_data (product : Product) : list (string * value) :=
  [ ("category_id", VNum (JS.ToNumber (PNum (category_id product))));
    ("product_name", product_name product);
    ("product_description", product_description product);
    ("product_stock", VNum (JS.ToNumber (PNum (product_stock product))));
    ("product_price", VNum (JS.ToNumber (PNum (product_price product)))) ].

Definition createProduct (product : Product) : M DB value :=
  guarded "DB Error - create product: " (Create (create_data product)).

End WithPrisma.

End ProductData.

(** ** services/productService.js *)

Module ProductService.

Section WithCollaborators.
Context {DB : Type}.
Variable prisma : request -> DB -> outcome value * DB.

(** [validate.validateId] of validators/baseValidators.js. *)
Variable validateId : value -> value.

Definition getProducts : M DB value :=
  products <- ProductData.getProducts prisma ;;
  ret products.

Definition getProductById (id_ : value) : M DB value :=
  let validatedId := validateId id_ in
  if JS.truthy validatedId then
    product <- ProductData.getProductById prisma validatedId ;;
    ret product
  else ret (VStr "Invalid product id").

Definition getProductsByCatId (id_ : value) : M DB value :=
  let validatedId := validateId id_ in
  if JS.truthy validatedId then
    products <- ProductData.getProductsByCatId prisma validatedId ;;
    ret products
  else ret (VStr "Invalid product id").

Definition addNewProduct (productForm : value) : M DB value :=
  validatedProduct <- ProductValidator.validateNewProduct productForm ;;
  match validatedProduct with
  | Some p =>
      result <- ProductData.createProduct prisma p ;;
      ret result
  | None => ret (VStr "invalid product data")
  end.

End WithCollaborators.

End ProductService.

(** ** controllers/productController.js *)

Record http_request : Type := mkRequest {
  params : list (string * value);
  req_body : value
}.

(** [req.params.<k>] *)
Definition param (req : http_request) (k : string) : value :=
  match JS.lookup k (params req) with
  | Some v => v
  | None => VUndefined
  end.

Module ProductController.

Section WithCollaborators.
Context {DB : Type}.
Variable prisma : request -> DB -> outcome value * DB.
Variable validateId : value -> value.

(** The [try]/[catch] every handler ends with. *)
Definition respond (service_call : M DB value) : M DB unit :=
  try_catch
    (result <- service_call ;; Res.json result)
    (fun err => Res.set_status 500 ;;; Res.send (message err)).

(** [router.get('/')] *)
Definition get_all (req : http_request) : M DB unit :=
  respond (ProductService.getProducts prisma).

(** [router.get('/:id')] *)
Definition get_by_id (req : http_request) : M DB unit :=
  respond (ProductService.getProductById prisma validateId (param req "id")).

Definition bad_request (msg : string) : M DB unit :=
  Res.set_statusMessage msg ;;;
  Res.set_status 400 ;;;
  Res.json (VObj [("content", VStr "error")]).

(** [router.get('/bycat/:catId')] *)
Definition get_by_cat (req : http_request) : M DB unit :=
  let catId := param req "catId" in
  (match JS.typeof catId with
   | JS.TUndefined => bad_request "Bad Request - missing cat id"
   | _ => ret tt
   end) ;;;
  respond (ProductService.getProductsByCatId prisma validateId catId).

Definition newline : string := String (ascii_of_N 10) EmptyString.

(** [router.post('/')] *)
Definition post (req : http_request) : M DB unit :=
  let newProduct := req_body req in
  (match JS.typeof newProduct with
   | JS.TUndefined => bad_request "Bad Request - missing product data"
   | _ => ret tt
   end) ;;;
  text <- lift (JS.ToString newProduct) ;;
  console_log ("product data sent:" ++ newline ++ " " ++ text) ;;;
  respond (ProductService.addNewProduct prisma newProduct).

End WithCollaborators.

End ProductController.

(** ** validators/baseValidators.js *)

(** Modelled from the spec: validators/baseValidators.js is not under src/.
    [validateId] accepts a raw identifier as received from a route parameter,
    confirms that it is a clean positive-integer string, and returns the
    normalized integer; anything else yields the falsy signal [false]. *)
Definition validateId (id_ : value) : value :=
  match id_ with
  | VStr s =>
      if Str.all_digits s then
        match Str.to_N s with
        | Some n => if 0 <? n then VNum (Num.of_N n) else VBool false
        | None => VBool false
        end
      else VBool false
  | _ => VBool false
  end.

(** ** A storage engine *)

Module Storage.

(** Modelled from the spec: the database behind the Prisma client and its
    schema are not under src/.  The product table is keyed by an integer id
    that storage assigns on creation, counting from 1; a storage that is
    offline fails every call. *)
Record db : Type := mkDb {
  rows : list (list (string * value));
  next_id : N;
  online : bool
}.

Definition empty : db := {| rows := []; next_id := 1; online := true |}.

Definition offline : db := {| rows := []; next_id := 1; online := false |}.

Definition field_is (k : string) (n : number) (row : list (string * value)) : bool :=
  match JS.lookup k row with
  | Some (VNum m) => Num.eqb m n
  | _ => false
  end.

Definition connection_error : error :=
  Error "Can't reach database server".

Definition argument_error : error :=
  Error "Invalid value provided. Expected Int.".

(** Modelled from the spec: the ORM collaborator providing [findMany],
    [findUnique] and [create] over the product table.  As the Prisma client
    documents, [findUnique] answers [null] when no row matches, [findMany]
    answers the rows that match, [create] answers the stored row, and a
    where-clause on an integer column refuses a value that is not a
    number. *)
Definition prisma (q : request) (d : db) : outcome value * db :=
  if negb (online d) then (Throw connection_error, d)
  else match q with
  | FindMany None => (Return (VArr (map VObj (rows d))), d)
  | FindMany (Some (k, VNum n)) =>
      (Return (VArr (map VObj (filter (field_is k n) (rows d)))), d)
  | FindMany (Some _) => (Throw argument_error, d)
  | FindUnique (k, VNum n) =>
      (match find (field_is k n) (rows d) with
       | Some r => Return (VObj r)
       | None => Return VNull
       end, d)
  | FindUnique _ => (Throw argument_error, d)
  | Create data =>
      let r := ("id", VNum (Num.of_N (next_id d))) :: data in
      (Return (VObj r), mkDb (rows d ++ [r]) (N.succ (next_id d)) (online d))
  end.

(** The id of a stored row. *)
Definition row_id (row : list (string * value)) : option value := JS.lookup "id" row.

(** Every stored row has a positive id below the next one to assign. *)
Definition well_keyed (d : db) : Prop :=
  0 < next_id d /\
  forall row, In row (rows d) ->
    exists n, row_id row = Some (VNum (Num.of_N n)) /\ 0 < n < next_id d.

End Storage.

Definition initial_world {DB} (d : DB) : world DB :=
  mkWorld d [] [] fresh_response.

(** ** Vocabulary of the statements *)

(** The response a client receives when a handler answers [res.json(v)] on a
    response nothing was set on: status 200 and the value as JSON body (an
    empty body when the value is [undefined]). *)
Definition ok_json (v : value) : response :=
  mkResponse 200 None (Some (mkSent 200 None (Json v))).

(** The response left by the missing-parameter branch of a handler. *)
Definition bad_request_sent (msg : string) : response :=
  mkResponse 400 (Some msg)
    (Some (mkSent 400 (Some msg) (Json (VObj [("content", VStr "error")])))).

(** A data-access function [f] that issues the call [q] swallows the errors
    of storage: it never throws, and when the call throws it logs the label
    and the message of the error and returns [undefined]. *)
Definition swallows {DB} (prisma : request -> DB -> outcome value * DB)
    (f : M DB value) (label : string) (q : request) : Prop :=
  forall w : world DB,
    (exists v w', f w = (Return v, w'))
    /\ (forall e db, prisma q (store w) = (Throw e, db) ->
          f w = (Return VUndefined,
                 logged (label ++ " " ++ message e) (queried q db w))).

(** [formProduct.k] of an object payload with the given fields. *)
Definition field (fields : list (string * value)) (k : string) : value :=
  match JS.lookup k fields with
  | Some v => v
  | None => VUndefined
  end.

(** The double quote. *)
Definition dquote : ascii := ascii_of_N 34.

(** The value converts to a text, and the text satisfies [p]. *)
Definition prints_as (p : string -> bool) (v : value) : Prop :=
  exists s, JS.ToString v = Return s /\ p s = true.

(** A payload as the validator requires it: [category_id] and
    [product_stock] print as a run of decimal digits (a numeric value
    without sign, point or exponent), [product_name] and
    [product_description] are strings that are not empty, and
    [product_price] prints as a currency amount without sign. *)
Definition well_formed (fields : list (string * value)) : Prop :=
  prints_as Str.all_digits (field fields "category_id")
  /\ (exists n, field fields "product_name" = VStr n /\ n <> EmptyString)
  /\ (exists d, field fields "product_description" = VStr d /\ d <> EmptyString)
  /\ prints_as Str.all_digits (field fields "product_stock")
  /\ prints_as Validator.currency_pattern (field fields "product_price").

(** One of the characters [<], [>] and the double quote. *)
Definition is_markup (c : ascii) : bool :=
  Ascii.eqb c "<" || Ascii.eqb c ">" || Ascii.eqb c dquote.

(** A computation that neither reaches storage nor touches the response. *)
Definition quiet {DB A} (c : M DB A) : Prop :=
  forall w : world DB,
    store (snd (c w)) = store w
    /\ queries (snd (c w)) = queries w
    /\ res (snd (c w)) = res w.

(** The text of a string value. *)
Definition text (v : value) : string :=
  match v with
  | VStr s => s
  | _ => EmptyString
  end.

(** [Number] of a value that converts; [NaN] stands for no result. *)
Definition number_of (v : value) : number :=
  match JS.Number v with
  | Return n => n
  | Throw _ => NaN
  end.

(** The product the validator builds from the fields of a payload. *)
Definition normalized (fields : list (string * value)) : Product :=
  {| id := Num.zero;
     category_id := number_of (field fields "category_id");
     product_name :=
       VStr (Validator.escape_string (text (field fields "product_name")));
     product_description :=
       VStr (Validator.escape_string (text (field fields "product_description")));
     product_stock := number_of (field fields "product_stock");
     product_price := number_of (field fields "product_price") |}.

(** The payload of the specification's example, with markup in the
    description and the stock given as text. *)
Definition widget : list (string * value) :=
  [ ("category_id", VNum (Num.of_N 1));
    ("product_name", VStr "Widget");
    ("product_description", VStr "A <b>widget</b>");
    ("product_stock", VStr "10");
    ("product_price", VStr "9.99") ].

(** A value that [Number] takes to a number that is neither [NaN] nor
    negative. *)
Definition non_negative_numeric (v : value) : Prop :=
  exists n, JS.Number v = Return n
            /\ match n with
               | NaN | Infinity true => False
               | Infinity false => True
               | Finite neg m _ => neg = false \/ m = 0
               end.

(** ** Vocabulary of the further properties *)

(** What the validator leaves when a check fails: [undefined] and one line
    on the console. *)
Definition rejected {DB} (w : world DB) : outcome (option Product) * world DB :=
  (Return None, logged "validateNewProduct(): Validation failed" w).

(** The five properties of a payload that the validator reads. *)
Definition validated_keys : list string :=
  [ "category_id"; "product_name"; "product_description";
    "product_stock"; "product_price" ].

(** The payloads on which the validator throws: [null] and [undefined],
    whose first property read fails, and the objects whose [category_id] is
    numeric and whose [product_name] is not a string, or is a string that is
    not empty while [product_description] is not a string. *)
Definition throws_on (v : value) : Prop :=
  match v with
  | VNull | VUndefined => True
  | VObj fields =>
      prints_as Str.all_digits (field fields "category_id")
      /\ ((forall s, field fields "product_name" <> VStr s)
          \/ (exists n, field fields "product_name" = VStr n /\ n <> EmptyString
                /\ forall s, field fields "product_description" <> VStr s))
  | _ => False
  end.

(** The values whose conversion to text always succeeds.  An object parsed
    from JSON that carries a property named [toString] hides the method of
    that name, and converting it to text throws a [TypeError]; so does
    converting an array that holds such an object. *)
Fixpoint printable (v : value) : bool :=
  match v with
  | VArr l =>
      (fix all_printable (l : list value) : bool :=
         match l with
         | [] => true
         | x :: r => printable x && all_printable r
         end) l
  | VObj fields =>
      match JS.lookup "toString" fields with
      | Some _ => false
      | None => true
      end
  | _ => true
  end.

(** A payload that the handler can log and whose three fields that the
    validator converts to text are printable. *)
Definition printable_payload (v : value) : bool :=
  printable v
  && match v with
     | VObj fields =>
         printable (field fields "category_id")
         && printable (field fields "product_stock")
         && printable (field fields "product_price")
     | _ => true
     end.

(** The eight characters [escape] rewrites: ampersand, double quote,
    apostrophe, [<], [>], slash, backslash and backquote. *)
Definition escapable (c : ascii) : bool :=
  match N_of_ascii c with
  | 38 | 34 | 39 | 60 | 62 | 47 | 92 | 96 => true
  | _ => false
  end.

(** The first character an escaped text stands for, and the escaped text
    that follows it. *)
Definition strip_prefix_step (p : ascii) (s : option string) : option string :=
  match s with
  | Some (String c r) => if Ascii.eqb c p then Some r else None
  | _ => None
  end.

Definition strip_prefix (p s : string) : option string :=
  (fix go (p : string) (acc : option string) : option string :=
     match p with
     | EmptyString => acc
     | String c p' => go p' (strip_prefix_step c acc)
     end) p (Some s).

Definition uncons_escaped (s : string) : option (ascii * string) :=
  match s with
  | EmptyString => None
  | String c r =>
      if Ascii.eqb c "&" then
        match strip_prefix "amp;" r, strip_prefix "quot;" r,
              strip_prefix "#x27;" r, strip_prefix "lt;" r,
              strip_prefix "gt;" r, strip_prefix "#x2F;" r,
              strip_prefix "#x5C;" r, strip_prefix "#96;" r with
        | Some t, _, _, _, _, _, _, _ => Some ("&"%char, t)
        | _, Some t, _, _, _, _, _, _ => Some (dquote, t)
        | _, _, Some t, _, _, _, _, _ => Some ("'"%char, t)
        | _, _, _, Some t, _, _, _, _ => Some ("<"%char, t)
        | _, _, _, _, Some t, _, _, _ => Some (">"%char, t)
        | _, _, _, _, _, Some t, _, _ => Some ("/"%char, t)
        | _, _, _, _, _, _, Some t, _ => Some ("\"%char, t)
        | _, _, _, _, _, _, _, Some t => Some ("`"%char, t)
        | _, _, _, _, _, _, _, _ => None
        end
      else Some (c, r)
  end.

(** Induction on values, through the elements of arrays. *)
Section ValueInduction.
Variable P : value -> Prop.
Hypothesis P_undefined : P VUndefined.
Hypothesis P_null : P VNull.
Hypothesis P_bool : forall b, P (VBool b).
Hypothesis P_num : forall n, P (VNum n).
Hypothesis P_str : forall s, P (VStr s).
Hypothesis P_arr : forall l, Forall P l -> P (VArr l).
Hypothesis P_obj : forall fields, P (VObj fields).

Fixpoint value_induction (v : value) : P v :=
  match v with
  | VUndefined => P_undefined
  | VNull => P_null
  | VBool b => P_bool b
  | VNum n => P_num n
  | VStr s => P_str s
  | VArr l =>
      P_arr l
        ((fix all (l : list value) : Forall P l :=
            match l with
            | [] => Forall_nil P
            | x :: r => Forall_cons x (value_induction x) (all r)
            end) l)
  | VObj fields => P_obj fields
  end.

End ValueInduction.

(** ** Sample evaluations *)

Example to_string_int : NumberToString.to_string (Num.of_N 10) = "10". Proof. vm_compute. reflexivity. Qed.
Example to_string_small : NumberToString.to_string (Finite false 5 3) = "0.005". Proof. vm_compute. reflexivity. Qed.
Example to_string_e21 : NumberToString.to_string (Num.of_N (10^21)) = "1e+21". Proof. vm_compute. reflexivity. Qed.
Example to_string_e20 : NumberToString.to_string (Num.of_N (10^20)) = "100000000000000000000". Proof. vm_compute. reflexivity. Qed.
Example to_string_e7 : NumberToString.to_string (Finite true 15 8) = "-1.5e-7". Proof. vm_compute. reflexivity. Qed.
Example of_string_half : StringToNumber.of_string "0.5" = Finite false 5 1. Proof. vm_compute. reflexivity. Qed.
Example of_string_spaces : StringToNumber.of_string " 12 " = Num.of_N 12. Proof. vm_compute. reflexivity. Qed.
Example of_string_symbol : StringToNumber.of_string "$9.99" = NaN. Proof. vm_compute. reflexivity. Qed.
Example of_string_separator : StringToNumber.of_string "1,000" = NaN. Proof. vm_compute. reflexivity. Qed.
Example of_string_exponent : StringToNumber.of_string "1.50e1" = Num.of_N 15. Proof. vm_compute. reflexivity. Qed.
Example of_string_hex : StringToNumber.of_string "0x1f" = Num.of_N 31. Proof. vm_compute. reflexivity. Qed.
Example of_string_point : StringToNumber.of_string "." = NaN. Proof. vm_compute. reflexivity. Qed.
Example of_string_infinity : StringToNumber.of_string "-Infinity" = Infinity true. Proof. vm_compute. reflexivity. Qed.
Example of_string_bare_exponent : StringToNumber.of_string "1e" = NaN. Proof. vm_compute. reflexivity. Qed.
Example of_string_leading_zeros : StringToNumber.of_string "007" = Num.of_N 7. Proof. vm_compute. reflexivity. Qed.
Example of_string_rounds : StringToNumber.of_string "9007199254740993" = Num.of_N 9007199254740992. Proof. vm_compute. reflexivity. Qed.
Example of_string_ties_to_even : StringToNumber.of_string "9007199254740995" = Num.of_N 9007199254740996. Proof. vm_compute. reflexivity. Qed.
Example of_string_overflows : StringToNumber.of_string "1e1000" = Infinity false. Proof. vm_compute. reflexivity. Qed.
Example of_string_largest : StringToNumber.of_string "1.7976931348623159e308" = Infinity false. Proof. vm_compute. reflexivity. Qed.
Example of_string_underflows : StringToNumber.of_string "2e-324" = Num.zero. Proof. vm_compute. reflexivity. Qed.
Example of_string_tenth :
  StringToNumber.of_string "0.1"
  = Finite false 1000000000000000055511151231257827021181583404541015625 55.
Proof. vm_compute. reflexivity. Qed.
Example print_tenth : NumberToString.to_string (StringToNumber.of_string "0.1") = "0.1". Proof. vm_compute. reflexivity. Qed.
Example print_sum : NumberToString.to_string (StringToNumber.of_string "0.30000000000000004") = "0.30000000000000004". Proof. vm_compute. reflexivity. Qed.
Example print_price : NumberToString.to_string (StringToNumber.of_string "9.99") = "9.99". Proof. vm_compute. reflexivity. Qed.
Example print_large : NumberToString.to_string (StringToNumber.of_string "123456789012345678901") = "123456789012345680000". Proof. vm_compute. reflexivity. Qed.
Example print_power : NumberToString.to_string (StringToNumber.of_string "1152921504606846976") = "1152921504606847000". Proof. vm_compute. reflexivity. Qed.
Example print_smallest : NumberToString.to_string (StringToNumber.of_string "5e-324") = "5e-324". Proof. vm_compute. reflexivity. Qed.
Example print_greatest : NumberToString.to_string (StringToNumber.of_string "1.7976931348623157e308") = "1.7976931348623157e+308". Proof. vm_compute. reflexivity. Qed.
Example print_e23 : NumberToString.to_string (StringToNumber.of_string "1e23") = "1e+23". Proof. vm_compute. reflexivity. Qed.
Example to_string_array :
  JS.ToString (VArr [VNum (Num.of_N 1); VNull; VStr "a"; VArr [VBool true; VObj []]])
  = Return "1,,a,true,[object Object]".
Proof. vm_compute. reflexivity. Qed.
Example to_string_hidden :
  JS.ToString (VArr [VStr "a"; VObj [("toString", VNull)]]) = Throw JS.cannot_convert.
Proof. vm_compute. reflexivity. Qed.
Example number_of_array : JS.Number (VArr [VStr "5"]) = Return (Num.of_N 5). Proof. vm_compute. reflexivity. Qed.
Example number_of_object : JS.Number (VObj []) = Return NaN. Proof. vm_compute. reflexivity. Qed.
Example currency_plain : Validator.currency_pattern "9.99" = true. Proof. reflexivity. Qed.
Example currency_symbol : Validator.currency_pattern "$9.99" = true. Proof. reflexivity. Qed.
Example currency_separators : Validator.currency_pattern "1,000.00" = true. Proof. reflexivity. Qed.
Example currency_one_decimal : Validator.currency_pattern "9.5" = false. Proof. reflexivity. Qed.
Example currency_negative : Validator.currency_pattern "-9.99" = false. Proof. reflexivity. Qed.
Example currency_symbol_alone : Validator.currency_pattern "$" = false. Proof. reflexivity. Qed.
Example currency_cents_only : Validator.currency_pattern ".50" = true. Proof. reflexivity. Qed.
Example currency_leading_zero : Validator.currency_pattern "09" = false. Proof. reflexivity. Qed.
Example currency_short_group : Validator.currency_pattern "1,00" = false. Proof. reflexivity. Qed.
Example currency_two_groups : Validator.currency_pattern "12,345,678" = true. Proof. reflexivity. Qed.
Example currency_long_head : Validator.currency_pattern "1234,567" = false. Proof. reflexivity. Qed.
Example currency_whole : Validator.currency_pattern "10" = true. Proof. reflexivity. Qed.
Example currency_empty : Validator.currency_pattern EmptyString = false. Proof. reflexivity. Qed.
Example escape_markup : Validator.escape_string ("<b>" ++ String (ascii_of_N 34) "T&C</b>") = "&lt;b&gt;&quot;T&amp;C&lt;&#x2F;b&gt;". Proof. reflexivity. Qed.
Example widget_validated :
  ProductValidator.validateNewProduct (VObj widget) (initial_world Storage.empty)
  = (Return (Some {| id := Num.zero;
                     category_id := Num.of_N 1;
                     product_name := VStr "Widget";
                     product_description := VStr "A &lt;b&gt;widget&lt;&#x2F;b&gt;";
                     product_stock := Num.of_N 10;
                     product_price := StringToNumber.of_string "9.99" |}),
     initial_world Storage.empty).
Proof. vm_compute. reflexivity. Qed.
Example price_with_symbol :
  JS.Number (VStr "$1,000.00") = Return NaN
  /\ Validator.isCurrency (VStr "$1,000.00") = Return true.
Proof. split; vm_compute; reflexivity. Qed.
Example get_abc :
  res (snd (ProductController.get_by_id Storage.prisma validateId
              (mkRequest [("id", VStr "abc")] VUndefined) (initial_world Storage.empty)))
  = ok_json (VStr "Invalid product id").
Proof. reflexivity. Qed.
Example post_widget :
  res (snd (ProductController.post Storage.prisma
              (mkRequest [] (VObj widget)) (initial_world Storage.empty)))
  = ok_json (VObj (("id", VNum (Num.of_N 1))
                   :: ProductData.create_data (normalized widget))).
Proof. vm_compute. reflexivity. Qed.
Example post_null :
  let out := ProductController.post Storage.prisma (mkRequest [] VNull)
               (initial_world Storage.empty) in
  fst out = Return tt
  /\ sent (res (snd out))
     = Some (mkSent 500 None
               (Text "Cannot read properties of null (reading 'category_id')")).
Proof. split; reflexivity. Qed.
Example post_hidden_toString :
  ProductController.post Storage.prisma
    (mkRequest [] (VObj (("toString", VNum (Num.of_N 1)) :: widget)))
    (initial_world Storage.empty)
  = (Throw JS.cannot_convert, initial_world Storage.empty).
Proof. vm_compute. reflexivity. Qed.
Example validate_hidden_toString :
  ProductValidator.validateNewProduct
    (VObj [("category_id", VObj [("toString", VNum (Num.of_N 1))]);
           ("product_name", VStr "W"); ("product_description", VStr "D")])
    (initial_world Storage.empty)
  = (Throw JS.cannot_convert, initial_world Storage.empty).
Proof. vm_compute. reflexivity. Qed.

(** * Properties *)

(** ** The runtime: digits and numbers *)

Lemma of_N_to_N (n : N) : Str.to_N (Str.of_N n) = Some n.
Proof.
  unfold Str.to_N, Str.of_N.
  rewrite NilEmpty.usu. simpl. now rewrite DecimalN.Unsigned.of_to.
Qed.

Lemma is_digit_uint_of_char (c : ascii) (d : uint) :
  Str.is_digit c = true -> exists d', uint_of_char c (Some d) = Some d'.
Proof.
  destruct c as [[] [] [] [] [] [] [] []]; vm_compute; intros H;
    try discriminate H; eexists; reflexivity.
Qed.

Lemma uint_of_char_is_digit (c : ascii) (d d' : uint) :
  uint_of_char c (Some d) = Some d' -> Str.is_digit c = true.
Proof.
  destruct c as [[] [] [] [] [] [] [] []]; vm_compute; intros H;
    try discriminate H; reflexivity.
Qed.

Lemma all_is_digit_parses (s : string) :
  Str.all Str.is_digit s = true <-> exists d, NilEmpty.uint_of_string s = Some d.
Proof.
  induction s as [|c r IH]; simpl.
  - split; [eexists; reflexivity | reflexivity].
  - rewrite andb_true_iff, IH. split.
    + intros [Hc [d Hd]]. rewrite Hd. now apply is_digit_uint_of_char.
    + intros [d Hd]. destruct (NilEmpty.uint_of_string r) as [d0|] eqn:E.
      * split; [eapply uint_of_char_is_digit; eassumption | eexists; reflexivity].
      * discriminate Hd.
Qed.

Lemma to_N_all_digits (s : string) (n : N) :
  Str.to_N s = Some n -> Str.all Str.is_digit s = true.
Proof.
  unfold Str.to_N. intros H. apply all_is_digit_parses.
  destruct (NilEmpty.uint_of_string s) as [d|]; [now exists d | discriminate H].
Qed.

Lemma all_digits_to_N (s : string) :
  Str.all_digits s = true -> exists n, Str.to_N s = Some n.
Proof.
  unfold Str.all_digits. rewrite andb_true_iff. intros [_ H].
  apply all_is_digit_parses in H. destruct H as [d Hd].
  exists (N.of_uint d). unfold Str.to_N. now rewrite Hd.
Qed.

Lemma string_of_uint_empty (d : uint) :
  Str.is_empty (NilEmpty.string_of_uint d) = true -> d = Nil.
Proof. destruct d; simpl; intros H; try discriminate H; reflexivity. Qed.

Lemma of_N_nonempty (n : N) : Str.is_empty (Str.of_N n) = false.
Proof.
  unfold Str.of_N.
  destruct (Str.is_empty (NilEmpty.string_of_uint (N.to_uint n))) eqn:E; [|reflexivity].
  apply string_of_uint_empty in E.
  destruct n as [|p]; [discriminate E|].
  simpl in E. now apply DecimalPos.Unsigned.to_uint_nonnil in E.
Qed.

Lemma of_N_all_digits (n : N) : Str.all_digits (Str.of_N n) = true.
Proof.
  unfold Str.all_digits. rewrite of_N_nonempty. simpl.
  eapply to_N_all_digits. apply of_N_to_N.
Qed.

(** A text with a character that is not a digit is not a run of digits. *)
Lemma any_non_digit (s : string) :
  Str.any (fun c => negb (Str.is_digit c)) s = true -> Str.all_digits s = false.
Proof.
  unfold Str.all_digits. intros H.
  assert (Str.all Str.is_digit s = false) as ->; [|apply andb_false_r].
  induction s as [|c r IH]; simpl in *; [discriminate H|].
  apply orb_true_iff in H. destruct H as [H|H].
  - apply negb_true_iff in H. now rewrite H.
  - rewrite (IH H). apply andb_false_r.
Qed.

(** ** validators/baseValidators.js *)

Lemma validateId_truthy (v : value) :
  JS.truthy (validateId v) = true ->
  exists s n, v = VStr s /\ Str.all_digits s = true /\ Str.to_N s = Some n
              /\ 0 < n /\ validateId v = VNum (Num.of_N n).
Proof.
  destruct v as [| |b|x|s|l|f]; simpl; try discriminate.
  destruct (Str.all_digits s) eqn:Hd; [|discriminate].
  destruct (Str.to_N s) as [n|] eqn:Hn; [|discriminate].
  destruct (0 <? n) eqn:Hp; [|discriminate].
  intros _. exists s, n. repeat split; trivial. now apply N.ltb_lt.
Qed.

(** C8: for every decimal text of a positive integer [n], also one with
    leading zeros, [validateId] returns the number [n]; for every input that
    has a character other than a digit (a letter, a minus sign, a decimal
    point), that is empty, that denotes zero or that is not a string, it
    returns a falsy value. *)
Theorem validateId_spec :
  (forall n, 0 < n -> validateId (VStr (Str.of_N n)) = VNum (Num.of_N n))
  /\ (forall s n, Str.all_digits s = true -> Str.to_N s = Some n -> 0 < n ->
        validateId (VStr s) = VNum (Num.of_N n))
  /\ (forall s, Str.any (fun c => negb (Str.is_digit c)) s = true ->
        JS.truthy (validateId (VStr s)) = false)
  /\ JS.truthy (validateId (VStr EmptyString)) = false
  /\ (forall s, Str.to_N s = Some 0 -> JS.truthy (validateId (VStr s)) = false)
  /\ (forall v, (forall s, v <> VStr s) -> JS.truthy (validateId v) = false)
  /\ JS.truthy (validateId (VStr "-5")) = false
  /\ JS.truthy (validateId (VStr "1.5")) = false
  /\ JS.truthy (validateId (VStr "abc")) = false
  /\ JS.truthy (validateId (VStr "0")) = false
  /\ validateId (VStr "42") = VNum (Num.of_N 42).
Proof.
  assert (Hgen : forall s n, Str.all_digits s = true -> Str.to_N s = Some n ->
                   0 < n -> validateId (VStr s) = VNum (Num.of_N n)).
  { intros s n Hd Hn Hp. simpl. rewrite Hd, Hn.
    apply N.ltb_lt in Hp. now rewrite Hp. }
  repeat split; try reflexivity.
  - intros n Hn. apply Hgen; trivial; [apply of_N_all_digits | apply of_N_to_N].
  - exact Hgen.
  - intros s H. simpl. now rewrite (any_non_digit s H).
  - intros s H. simpl. rewrite H. now destruct (Str.all_digits s).
  - intros v H. destruct v; try reflexivity. now destruct (H s).
Qed.

Lemma validateId_spec_witness :
  Str.all_digits "007" = true /\ Str.to_N "007" = Some 7 /\ 0 < 7
  /\ validateId (VStr "007") = VNum (Num.of_N 7).
Proof.
  split; [reflexivity|]. split; [reflexivity|]. split; [reflexivity|].
  apply (proj1 (proj2 validateId_spec) "007" 7); reflexivity.
Defined.

(** ** dataAccess/productData.js *)

Section DataAccessFacts.
Context {DB : Type}.
Variable prisma : request -> DB -> outcome value * DB.

Lemma guarded_returns (label : string) (q : request) (w : world DB) v db :
  prisma q (store w) = (Return v, db) ->
  ProductData.guarded prisma label q w = (Return v, queried q db w).
Proof.
  intros H. unfold ProductData.guarded, try_catch, ProductData.call.
  now rewrite H.
Qed.

Lemma guarded_throws (label : string) (q : request) (w : world DB) e db :
  prisma q (store w) = (Throw e, db) ->
  ProductData.guarded prisma label q w
  = (Return VUndefined, logged (label ++ " " ++ message e) (queried q db w)).
Proof.
  intros H. unfold ProductData.guarded, try_catch, ProductData.call.
  now rewrite H.
Qed.

Lemma guarded_swallows (label : string) (q : request) :
  swallows prisma (ProductData.guarded prisma label q) label q.
Proof.
  intros w. split.
  - destruct (prisma q (store w)) as [[v|e] db] eqn:H.
    + rewrite (guarded_returns label q w v db H). eauto.
    + rewrite (guarded_throws label q w e db H). eauto.
  - intros e db H. now apply guarded_throws.
Qed.

(** What a data-access call leaves of the world: one more call on record,
    the response untouched. *)
Lemma guarded_frame (label : string) (q : request) (w : world DB) :
  queries (snd (ProductData.guarded prisma label q w)) = (queries w ++ [q])%list
  /\ res (snd (ProductData.guarded prisma label q w)) = res w.
Proof.
  destruct (prisma q (store w)) as [[v|e] db] eqn:H.
  - rewrite (guarded_returns label q w v db H). now split.
  - rewrite (guarded_throws label q w e db H). now split.
Qed.

End DataAccessFacts.

(** ** services/productService.js *)

Section ServiceFacts.
Context {DB : Type}.
Variable prisma : request -> DB -> outcome value * DB.
Variable vid : value -> value.

Lemma bind_ret_id (c : M DB value) (w : world DB) :
  (x <- c ;; ret x) w = c w.
Proof. unfold bind, ret. now destruct (c w) as [[v|e] w']. Qed.

Lemma service_getProducts_eq (w : world DB) :
  ProductService.getProducts prisma w = ProductData.getProducts prisma w.
Proof. apply bind_ret_id. Qed.

Lemma service_getProductById_valid (id_ : value) (w : world DB) :
  JS.truthy (vid id_) = true ->
  ProductService.getProductById prisma vid id_ w
  = ProductData.getProductById prisma (vid id_) w.
Proof.
  intros H. unfold ProductService.getProductById. rewrite H. apply bind_ret_id.
Qed.

Lemma service_getProductsByCatId_valid (id_ : value) (w : world DB) :
  JS.truthy (vid id_) = true ->
  ProductService.getProductsByCatId prisma vid id_ w
  = ProductData.getProductsByCatId prisma (vid id_) w.
Proof.
  intros H. unfold ProductService.getProductsByCatId. rewrite H. apply bind_ret_id.
Qed.

Lemma service_getProductById_invalid (id_ : value) (w : world DB) :
  JS.truthy (vid id_) = false ->
  ProductService.getProductById prisma vid id_ w
  = (Return (VStr "Invalid product id"), w).
Proof. intros H. unfold ProductService.getProductById. now rewrite H. Qed.

Lemma service_getProductsByCatId_invalid (id_ : value) (w : world DB) :
  JS.truthy (vid id_) = false ->
  ProductService.getProductsByCatId prisma vid id_ w
  = (Return (VStr "Invalid product id"), w).
Proof. intros H. unfold ProductService.getProductsByCatId. now rewrite H. Qed.

End ServiceFacts.

(** ** controllers/productController.js *)

Section ControllerFacts.
Context {DB : Type}.
Variable prisma : request -> DB -> outcome value * DB.
Variable vid : value -> value.

(** A service call that returns [v], on a response not yet sent: the
    handler sends [v] as JSON under the status the response carries. *)
Lemma respond_returns (c : M DB value) (w w' : world DB) (v : value) :
  c w = (Return v, w') -> sent (res w') = None ->
  ProductController.respond c w
  = (Return tt,
     with_response
       (mkResponse (statusCode (res w')) (statusMessage (res w'))
          (Some (mkSent (statusCode (res w')) (statusMessage (res w')) (Json v))))
       w').
Proof.
  intros Hc Hs.
  unfold ProductController.respond, try_catch, bind, Res.json, Res.send_payload.
  now rewrite Hc, Hs.
Qed.

(** A service call that returns, on a response already sent: [res.json]
    throws, the [catch] sets the status to 500 and [res.send] throws again,
    out of the handler. *)
Lemma respond_after_sent (c : M DB value) (w w' : world DB) (v : value) r :
  c w = (Return v, w') -> sent (res w') = Some r ->
  ProductController.respond c w
  = (Throw Res.headers_sent_error,
     with_response (mkResponse 500 (statusMessage (res w')) (Some r)) w').
Proof.
  intros Hc Hs.
  unfold ProductController.respond, try_catch, bind, Res.json, Res.send,
    Res.send_payload, Res.set_status.
  rewrite Hc, Hs. simpl. now rewrite Hs.
Qed.

Lemma respond_fresh (c : M DB value) (w w' : world DB) (v : value) :
  c w = (Return v, w') -> res w' = fresh_response ->
  ProductController.respond c w = (Return tt, with_response (ok_json v) w').
Proof.
  intros Hc Hr. rewrite (respond_returns c w w' v Hc); rewrite Hr; reflexivity.
Qed.

Lemma bad_request_fresh (msg : string) (w : world DB) :
  sent (res w) = None ->
  ProductController.bad_request msg w
  = (Return tt, with_response (bad_request_sent msg) w).
Proof.
  intros Hs.
  unfold ProductController.bad_request, bind, Res.set_statusMessage,
    Res.set_status, Res.json, Res.send_payload. simpl. now rewrite Hs.
Qed.

Lemma typeof_undefined (v : value) :
  v <> VUndefined ->
  forall (a b : M DB unit),
    match JS.typeof v with JS.TUndefined => a | _ => b end = b.
Proof. intros H a b. destruct v; try reflexivity. now destruct H. Qed.

End ControllerFacts.

(** ** The runtime: [Number] of a run of digits *)

Lemma rev_acc_rev_acc (s a b : string) :
  Str.rev_acc (Str.rev_acc s a) b = Str.rev_acc a (s ++ b).
Proof.
  revert a b. induction s as [|c r IH]; intros a b; simpl; [reflexivity|].
  now rewrite IH.
Qed.

Lemma append_empty_r (s : string) : (s ++ EmptyString)%string = s.
Proof. induction s as [|c r IH]; simpl; [reflexivity | now rewrite IH]. Qed.

Lemma rev_involutive (s : string) : Str.rev (Str.rev s) = s.
Proof. unfold Str.rev. rewrite rev_acc_rev_acc. simpl. apply append_empty_r. Qed.

Lemma all_rev_acc (p : ascii -> bool) (s a : string) :
  Str.all p (Str.rev_acc s a) = Str.all p s && Str.all p a.
Proof.
  revert a. induction s as [|c r IH]; intros a; simpl; [reflexivity|].
  rewrite IH. simpl. now destruct (p c), (Str.all p r).
Qed.

Lemma all_rev (p : ascii -> bool) (s : string) :
  Str.all p (Str.rev s) = Str.all p s.
Proof. unfold Str.rev. rewrite all_rev_acc. simpl. apply andb_true_r. Qed.

Lemma digit_facts (c : ascii) :
  Str.is_digit c = true ->
  StringToNumber.is_ws c = false
  /\ Ascii.eqb c "-" = false /\ Ascii.eqb c "+" = false
  /\ Ascii.eqb c "I" = false /\ Ascii.eqb c "." = false
  /\ Ascii.eqb c "e" = false /\ Ascii.eqb c "E" = false
  /\ Ascii.eqb c "x" = false /\ Ascii.eqb c "X" = false
  /\ Ascii.eqb c "o" = false /\ Ascii.eqb c "O" = false
  /\ Ascii.eqb c "b" = false /\ Ascii.eqb c "B" = false.
Proof.
  destruct c as [[] [] [] [] [] [] [] []]; vm_compute; intros H;
    try discriminate H; repeat split.
Qed.

Lemma drop_ws_digits (s : string) :
  Str.all Str.is_digit s = true -> Str.drop_while StringToNumber.is_ws s = s.
Proof.
  destruct s as [|c r]; simpl; [reflexivity|].
  rewrite andb_true_iff. intros [Hc _].
  now rewrite (proj1 (digit_facts c Hc)).
Qed.

Lemma trim_digits (s : string) :
  Str.all Str.is_digit s = true -> StringToNumber.trim s = s.
Proof.
  intros H. unfold StringToNumber.trim.
  rewrite (drop_ws_digits s H), drop_ws_digits by now rewrite all_rev.
  apply rev_involutive.
Qed.

Lemma non_decimal_digits (s : string) :
  Str.all Str.is_digit s = true -> StringToNumber.non_decimal s = None.
Proof.
  destruct s as [|z [|p r]]; simpl; try reflexivity.
  rewrite !andb_true_iff. intros [_ [Hp _]].
  destruct (digit_facts p Hp) as (_ & _ & _ & _ & _ & _ & _ & -> & -> & -> & -> & -> & ->).
  simpl. now destruct (Ascii.eqb z "0").
Qed.

Lemma split_exponent_digits (s : string) :
  Str.all Str.is_digit s = true -> StringToNumber.split_exponent s = (s, None).
Proof.
  induction s as [|c r IH]; simpl; [reflexivity|].
  rewrite andb_true_iff. intros [Hc Hr].
  destruct (digit_facts c Hc) as (_ & _ & _ & _ & _ & -> & -> & _).
  simpl. now rewrite (IH Hr).
Qed.

Lemma split_at_point_digits (s : string) :
  Str.all Str.is_digit s = true -> Str.split_at "." s = (s, None).
Proof.
  induction s as [|c r IH]; simpl; [reflexivity|].
  rewrite andb_true_iff. intros [Hc Hr].
  destruct (digit_facts c Hc) as (_ & _ & _ & _ & -> & _).
  now rewrite (IH Hr).
Qed.

(** [Number] of a text made of digits is the double nearest to the integer
    the digits denote. *)
Lemma of_string_digits (s : string) (n : N) :
  Str.all_digits s = true -> Str.to_N s = Some n ->
  StringToNumber.of_string s = Double.round false n 0.
Proof.
  unfold Str.all_digits. rewrite andb_true_iff, negb_true_iff.
  intros [Hne Hd] Hn. unfold StringToNumber.of_string.
  rewrite (trim_digits s Hd), Hne, (non_decimal_digits s Hd).
  destruct s as [|c r]; [discriminate Hne|].
  assert (Hc : Str.is_digit c = true).
  { simpl in Hd. now apply andb_true_iff in Hd. }
  destruct (digit_facts c Hc) as (_ & Hm & Hp & HI & _).
  unfold StringToNumber.split_sign. rewrite Hm, Hp.
  replace (String.eqb (String c r) "Infinity") with false
    by (simpl; now rewrite HI).
  unfold StringToNumber.unsigned_decimal.
  rewrite (split_exponent_digits _ Hd), (split_at_point_digits _ Hd).
  rewrite Hd, append_empty_r, Hn. reflexivity.
Qed.

(** Rounding keeps the sign: the result is an infinity or a finite number
    of the sign given, never [NaN]. *)
Lemma make_sign (neg : bool) (m d : N) :
  exists m' d', Num.make neg m d = Finite neg m' d'.
Proof.
  unfold Num.make. destruct (m =? 0); [now eexists; eexists|].
  destruct (Num.reduce (N.to_nat d) m d) as [m' d']. now exists m', d'.
Qed.

Lemma round_sign (neg : bool) (m : N) (e : Z) :
  Double.round neg m e = Infinity neg
  \/ exists m' d', Double.round neg m e = Finite neg m' d'.
Proof.
  assert (Hr : forall p q, Double.round_ratio neg p q = Infinity neg
                 \/ exists m' d', Double.round_ratio neg p q = Finite neg m' d').
  { intros p q. unfold Double.round_ratio.
    match goal with |- context [if ?b then (_, _) else (_, _)] => destruct b end;
      match goal with |- context [if ?b then Infinity neg else _] => destruct b end;
      try (now left); right; unfold Double.of_binary;
      match goal with |- context [match ?E with Z0 => _ | Zpos _ => _ | Zneg _ => _ end] =>
        destruct E end; apply make_sign. }
  unfold Double.round.
  destruct (m =? 0); [right; now eexists; eexists|].
  match goal with |- context [if ?b then Infinity neg else _] => destruct b end;
    [now left|].
  match goal with |- context [if ?b then Finite neg 0 0 else _] => destruct b end;
    [right; now eexists; eexists|].
  destruct e; apply Hr.
Qed.

(** ** Integers below [2^53] are doubles *)

Lemma reduce_pow10 (n : nat) (p : N) :
  Num.reduce n (p * 10 ^ N.of_nat n) (N.of_nat n) = (p, 0).
Proof.
  induction n as [|n IH].
  - simpl. now rewrite N.mul_1_r.
  - cbn [Num.reduce].
    assert (Hd : (N.of_nat (S n) =? 0) = false) by (apply N.eqb_neq; lia).
    rewrite Hd.
    assert (Hp : p * 10 ^ N.of_nat (S n) = (p * 10 ^ N.of_nat n) * 10).
    { rewrite Nat2N.inj_succ, N.pow_succ_r'. lia. }
    rewrite Hp, N.Div0.mod_mul, N.eqb_refl, N.div_mul by lia.
    replace (N.of_nat (S n) - 1) with (N.of_nat n) by lia. exact IH.
Qed.

Lemma make_pow10 (neg : bool) (p j : N) :
  p <> 0 -> Num.make neg (p * 10 ^ j) j = Finite neg p 0.
Proof.
  intros Hp. unfold Num.make.
  assert (H : (p * 10 ^ j =? 0) = false).
  { apply N.eqb_neq. apply N.neq_mul_0. split; [exact Hp|].
    apply N.pow_nonzero. lia. }
  rewrite H. pose proof (reduce_pow10 (N.to_nat j) p) as R.
  rewrite N2Nat.id in R. now rewrite R.
Qed.

Lemma round_div_one (p : N) : Double.round_div p 1 = p.
Proof.
  unfold Double.round_div. rewrite N.mod_1_r, N.div_1_r. reflexivity.
Qed.

(** An integer below [2^53] is a double: rounding leaves it as it is. *)
Lemma round_integer (neg : bool) (k : N) :
  k < 2 ^ 53 -> Double.round neg k 0 = Finite neg k 0.
Proof.
  intros Hk. unfold Double.round.
  destruct (k =? 0) eqn:E0; [apply N.eqb_eq in E0; now subst|].
  apply N.eqb_neq in E0.
  assert (Hl : N.log2 k < 53) by (apply N.log2_lt_pow2; lia).
  assert (Hlow : 2 ^ N.log2 k <= k) by (apply N.log2_spec; lia).
  assert (Hup : k < 2 ^ N.succ (N.log2 k)) by (apply N.log2_spec; lia).
  assert (H1 : (310 <? Z.of_N (N.log2 k) / 4 + 0)%Z = false).
  { apply Z.ltb_ge. rewrite Z.add_0_r.
    assert (Z.of_N (N.log2 k) / 4 <= Z.of_N (N.log2 k))%Z
      by (apply Z.div_le_upper_bound; lia). lia. }
  assert (H2 : ((Z.of_N (N.log2 k) + 3) / 3 + 0 <? -330)%Z = false).
  { apply Z.ltb_ge. rewrite Z.add_0_r.
    assert (0 <= (Z.of_N (N.log2 k) + 3) / 3)%Z by (apply Z.div_pos; lia). lia. }
  rewrite H1, H2. cbn [Z.to_N]. rewrite N.pow_0_r, N.mul_1_r.
  unfold Double.round_ratio, Double.log2_ratio.
  change (N.log2 1) with 0. rewrite Z.sub_0_r.
  assert (Ha : Double.at_least_pow2 k 1 (Z.of_N (N.log2 k)) = true).
  { unfold Double.at_least_pow2.
    destruct (Z.of_N (N.log2 k)) eqn:EL; try lia;
      rewrite <- EL, N2Z.id, N.mul_1_l; now apply N.leb_le. }
  rewrite Ha.
  rewrite Z.max_l by lia.
  destruct (Z.of_N (N.log2 k) - 52)%Z as [|j|j] eqn:EE; [| lia |].
  - cbn [Z.to_N]. rewrite N.pow_0_r, N.mul_1_r, round_div_one.
    assert (Hne : (k =? 2 ^ 53) = false) by (apply N.eqb_neq; lia).
    rewrite Hne. cbn [Z.ltb Z.compare]. unfold Double.of_binary.
    cbn [Z.to_N]. rewrite N.pow_0_r, N.mul_1_r.
    unfold Num.make. apply N.eqb_neq in E0. now rewrite E0.
  - rewrite round_div_one.
    assert (Hj : N.log2 k + Npos j = 52) by lia.
    assert (Hlt : k * 2 ^ Npos j < 2 ^ 53).
    { replace 53 with (N.succ (N.log2 k) + Npos j) by lia.
      rewrite N.pow_add_r. apply N.mul_lt_mono_pos_r; [|exact Hup].
      apply N.neq_0_lt_0. apply N.pow_nonzero. lia. }
    assert (Hne : (k * 2 ^ Npos j =? 2 ^ 53) = false) by (apply N.eqb_neq; lia).
    rewrite Hne. cbn [Z.ltb Z.compare]. unfold Double.of_binary.
    rewrite <- N.mul_assoc, <- N.pow_mul_l. change (2 * 5) with 10.
    now apply make_pow10.
Qed.

(** ** The [validator] package: [escape] *)

Lemma any_append (p : ascii -> bool) (a b : string) :
  Str.any p (a ++ b) = Str.any p a || Str.any p b.
Proof.
  induction a as [|c r IH]; simpl; [reflexivity|].
  rewrite IH. apply orb_assoc.
Qed.

Lemma entity_no_markup (c : ascii) : Str.any is_markup (Validator.entity c) = false.
Proof. destruct c as [[] [] [] [] [] [] [] []]; reflexivity. Qed.

(** The escaped text holds no [<], no [>] and no double quote. *)
Lemma escape_no_markup (s : string) :
  Str.any is_markup (Validator.escape_string s) = false.
Proof.
  induction s as [|c r IH]; simpl; [reflexivity|].
  now rewrite any_append, entity_no_markup, IH.
Qed.

Lemma append_assoc (a b c : string) :
  ((a ++ b) ++ c)%string = (a ++ (b ++ c))%string.
Proof. induction a as [|x r IH]; simpl; [reflexivity | now rewrite IH]. Qed.

Lemma escape_append (a b : string) :
  Validator.escape_string (a ++ b)
  = (Validator.escape_string a ++ Validator.escape_string b)%string.
Proof.
  induction a as [|c r IH]; simpl; [reflexivity|].
  rewrite IH. now rewrite append_assoc.
Qed.

(** ** Texts *)

Lemma length_append (a b : string) :
  String.length (a ++ b) = (String.length a + String.length b)%nat.
Proof. induction a as [|c r IH]; simpl; [reflexivity | now rewrite IH]. Qed.

Lemma length_repeat (c : ascii) (j : nat) : String.length (Str.repeat c j) = j.
Proof. induction j as [|j IH]; simpl; [reflexivity | now rewrite IH]. Qed.


(** ** The runtime: conversion of values *)

Lemma ToString_text (s : string) : JS.ToString (VStr s) = Return s.
Proof. reflexivity. Qed.

Lemma ToString_number (x : number) :
  JS.ToString (VNum x) = Return (NumberToString.to_string x).
Proof. reflexivity. Qed.

(** A value that converts to text converts to a number as well. *)
Lemma ToString_Number (v : value) (s : string) :
  JS.ToString v = Return s ->
  exists p, JS.ToPrimitive v = Return p
            /\ s = JS.text_of_primitive p
            /\ JS.Number v = Return (JS.ToNumber p).
Proof.
  unfold JS.ToString, JS.Number. destruct (JS.ToPrimitive v) as [p|e];
    [|discriminate].
  intros [= <-]. now exists p.
Qed.

Lemma join_converts (l : list value) :
  Forall (fun v => printable v = true -> exists p, JS.ToPrimitive v = Return p) l ->
  printable (VArr l) = true ->
  exists p, JS.ToPrimitive (VArr l) = Return p.
Proof.
  intros Hall. cbn [printable JS.ToPrimitive].
  match goal with
  | |- ?a l = true -> exists p, match ?j l with _ => _ end = _ =>
      set (all_printable := a); set (join := j)
  end.
  intros Hp.
  assert (Hj : exists s, join l = Return s).
  { induction Hall as [|x r Hx Hr IH]; [now exists EmptyString|].
    cbn [all_printable] in Hp. apply andb_true_iff in Hp. destruct Hp as [Hpx Hpr].
    fold all_printable in Hpr. destruct (IH Hpr) as [b Hb].
    destruct (Hx Hpx) as [p Hp].
    cbn [join]. fold join. rewrite Hp, Hb.
    destruct x; destruct r; eexists; reflexivity. }
  destruct Hj as [s ->]. now eexists.
Qed.

(** A printable value converts. *)
Lemma printable_converts (v : value) :
  printable v = true -> exists p, JS.ToPrimitive v = Return p.
Proof.
  induction v using value_induction; try (intros _; eexists; reflexivity).
  - now apply join_converts.
  - cbn [printable JS.ToPrimitive].
    destruct (JS.lookup "toString" fields); [discriminate | now eexists].
Qed.

Lemma printable_prints (v : value) :
  printable v = true -> exists s, JS.ToString v = Return s.
Proof.
  intros H. destruct (printable_converts v H) as [p Hp].
  unfold JS.ToString. rewrite Hp. now eexists.
Qed.

Lemma Number_default_param (v : value) :
  JS.Number (default_param v) = JS.Number v.
Proof. destruct v; reflexivity. Qed.

(** ** validators/productValidator.js *)

Section ValidatorFacts.
Context {DB : Type}.

Lemma get_prop_object (fields : list (string * value)) (k : string) :
  get_prop (VObj fields) k = Return (field fields k).
Proof. unfold get_prop, field. now destruct (JS.lookup k fields). Qed.


(** The product built from fields that convert. *)
Lemma new_Product_normalized (fields : list (string * value)) (n d c st pr : string) :
  field fields "product_name" = VStr n ->
  field fields "product_description" = VStr d ->
  JS.ToString (field fields "category_id") = Return c ->
  JS.ToString (field fields "product_stock") = Return st ->
  JS.ToString (field fields "product_price") = Return pr ->
  new_Product (VNum Num.zero) (field fields "category_id")
    (VStr (Validator.escape_string n)) (VStr (Validator.escape_string d))
    (field fields "product_stock") (field fields "product_price")
  = Return (normalized fields).
Proof.
  intros Hn Hd Hc Hs Hp.
  destruct (ToString_Number _ _ Hc) as (pc & _ & _ & Nc).
  destruct (ToString_Number _ _ Hs) as (ps & _ & _ & Ns).
  destruct (ToString_Number _ _ Hp) as (pp & _ & _ & Np).
  unfold new_Product, normalized, number_of, and_then.
  rewrite !Number_default_param, Nc, Ns, Np, Hn, Hd. reflexivity.
Qed.

(** The run of the validator on an object, check by check: a conversion to
    text that throws, a numeric check that fails, a text field that is not
    a string, and so on down to the product. *)
Lemma validateNewProduct_run (fields : list (string * value)) (w : world DB) :
  ProductValidator.validateNewProduct (VObj fields) w
  = match JS.ToString (field fields "category_id") with
    | Throw e => (Throw e, w)
    | Return c =>
        if negb (Str.all_digits c) then rejected w
        else match field fields "product_name" with
        | VStr n =>
            if Str.is_empty n then rejected w
            else match field fields "product_description" with
            | VStr d =>
                if Str.is_empty d then rejected w
                else match JS.ToString (field fields "product_stock") with
                | Throw e => (Throw e, w)
                | Return st =>
                    if negb (Str.all_digits st) then rejected w
                    else match JS.ToString (field fields "product_price") with
                    | Throw e => (Throw e, w)
                    | Return pr =>
                        if Validator.currency_pattern pr
                        then (Return (Some (normalized fields)), w)
                        else rejected w
                    end
                end
            | v => (Throw (TypeError ("Expected a string but received a "
                                      ++ Validator.type_name v)), w)
            end
        | v => (Throw (TypeError ("Expected a string but received a "
                                  ++ Validator.type_name v)), w)
        end
    end.
Proof.
  unfold ProductValidator.validateNewProduct, ProductValidator.checks, andM,
    ProductValidator.numeric_field, ProductValidator.text_field,
    ProductValidator.currency_field, ProductValidator.as_text, and_then,
    bind, lift, ret, rejected.
  rewrite !get_prop_object. cbv beta iota.
  destruct (JS.ToString (field fields "category_id")) as [c|e] eqn:Hc;
    [|reflexivity].
  cbn [Validator.isNumeric Validator.assertString].
  destruct (Str.all_digits c) eqn:Dc; [|reflexivity].
  destruct (field fields "product_name") as [| |b|x|n|l|f] eqn:Hn;
    try reflexivity.
  cbn [Validator.isEmpty Validator.assertString].
  destruct n as [|a n']; [reflexivity|].
  destruct (field fields "product_description") as [| |b|x|d|l|f] eqn:Hd;
    try reflexivity.
  cbn [Validator.isEmpty Validator.assertString].
  destruct d as [|a' d']; [reflexivity|].
  cbn [Str.is_empty negb].
  destruct (JS.ToString (field fields "product_stock")) as [st|e] eqn:Hs;
    [|reflexivity].
  cbn [Validator.isNumeric Validator.assertString].
  destruct (Str.all_digits st) eqn:Ds; [|reflexivity].
  destruct (JS.ToString (field fields "product_price")) as [pr|e] eqn:Hp;
    [|reflexivity].
  cbn [Validator.isCurrency Validator.assertString negb].
  destruct (Validator.currency_pattern pr) eqn:Dp; [|reflexivity].
  cbn [Validator.escape Validator.assertString].
  now rewrite (new_Product_normalized fields _ _ c st pr Hn Hd Hc Hs Hp).
Qed.

(** [null] and [undefined]: the first property read throws. *)
Lemma validateNewProduct_null (w : world DB) :
  ProductValidator.validateNewProduct VNull w
  = (Throw (TypeError "Cannot read properties of null (reading 'category_id')"),
     logged "validateNewProduct(): Parameter is null" w).
Proof. reflexivity. Qed.

Lemma validateNewProduct_undefined (w : world DB) :
  ProductValidator.validateNewProduct VUndefined w
  = (Throw (TypeError "Cannot read properties of undefined (reading 'category_id')"), w).
Proof. reflexivity. Qed.

(** A payload that is neither an object nor [null] nor [undefined] has none
    of the properties: validation fails on [category_id]. *)
Lemma validate_primitive (v : value) (w : world DB) :
  (forall fields, v <> VObj fields) -> v <> VNull -> v <> VUndefined ->
  ProductValidator.validateNewProduct v w = rejected w.
Proof.
  intros Ho Hn Hu. destruct v; try reflexivity.
  - now destruct Hu.
  - now destruct Hn.
  - now destruct (Ho fields).
Qed.

(** A payload whose [category_id] is numeric and whose [product_name] is not
    a string: [isEmpty] throws. *)
Lemma validateNewProduct_name_not_string (fields : list (string * value))
    (w : world DB) :
  prints_as Str.all_digits (field fields "category_id") ->
  (forall s, field fields "product_name" <> VStr s) ->
  ProductValidator.validateNewProduct (VObj fields) w
  = (Throw (TypeError ("Expected a string but received a "
                       ++ Validator.type_name (field fields "product_name"))), w).
Proof.
  intros (c & Hc & Dc) Hn. rewrite validateNewProduct_run, Hc, Dc.
  cbn [negb].
  destruct (field fields "product_name") eqn:E; try reflexivity.
  now destruct (Hn s).
Qed.

Lemma validateNewProduct_well_formed (w : world DB)
    (fields : list (string * value)) :
  well_formed fields ->
  ProductValidator.validateNewProduct (VObj fields) w
  = (Return (Some (normalized fields)), w).
Proof.
  intros ((c & Hc & Dc) & (n & Hn & Hn') & (d & Hd & Hd')
          & (st & Hs & Ds) & (pr & Hp & Dp)).
  rewrite validateNewProduct_run, Hc, Dc, Hn, Hd, Hs, Ds, Hp, Dp.
  destruct n; [now destruct Hn'|]. destruct d; [now destruct Hd'|]. reflexivity.
Qed.

Lemma quiet_ret {A} (a : A) : quiet (@ret DB A a).
Proof. intros w. now repeat split. Qed.

Lemma quiet_lift {A} (o : outcome A) : quiet (@lift DB A o).
Proof. intros w. now repeat split. Qed.

Lemma quiet_console_log (line : string) : quiet (@console_log DB line).
Proof. intros w. now repeat split. Qed.

Lemma quiet_bind {A B} (c : M DB A) (k : A -> M DB B) :
  quiet c -> (forall a, quiet (k a)) -> quiet (bind c k).
Proof.
  intros Hc Hk w. unfold bind. specialize (Hc w).
  destruct (c w) as [[a|e] w1]; simpl in *; [|exact Hc].
  destruct (Hk a w1) as (H1 & H2 & H3). rewrite H1, H2, H3. exact Hc.
Qed.

Ltac quiet_steps :=
  repeat first
    [ apply quiet_ret
    | apply quiet_lift
    | apply quiet_console_log
    | apply quiet_bind; [|intros ?]
    | match goal with
      | |- quiet (if ?b then _ else _) => destruct b
      | |- quiet (match ?x with _ => _ end) => destruct x
      end ].

(** Validation neither reads nor changes storage, the calls on record or
    the response. *)
Lemma validateNewProduct_quiet (form : value) :
  quiet (@ProductValidator.validateNewProduct DB form).
Proof.
  unfold ProductValidator.validateNewProduct, ProductValidator.checks, andM,
    ProductValidator.numeric_field, ProductValidator.text_field,
    ProductValidator.currency_field.
  quiet_steps.
Qed.

End ValidatorFacts.
(** ** The claims *)

(** C1, as the claim states it, fails: a [category_id] given as the text
    [+5], or as the number 10^21, is a numeric value that is not negative,
    and a price given as the number 10.5 is an amount that is not negative;
    with every other field as in the specification's example, the validator
    returns [undefined] and logs [Validation failed]. *)
Lemma validateNewProduct_rejects_numeric_values :
  let w := initial_world Storage.empty in
  let payload (cat price : value) :=
    [ ("category_id", cat); ("product_name", VStr "Widget");
      ("product_description", VStr "A widget");
      ("product_stock", VNum (Num.of_N 10)); ("product_price", price) ] in
  let signed := payload (VStr "+5") (VStr "9.99") in
  let large := payload (VNum (Num.of_N (10 ^ 21))) (VStr "9.99") in
  let amount := payload (VNum (Num.of_N 1)) (VNum (Num.make false 105 1)) in
  JS.Number (field signed "category_id") = Return (Num.of_N 5)
  /\ JS.ToString (field large "category_id") = Return "1e+21"
  /\ JS.ToString (field amount "product_price") = Return "10.5"
  /\ non_negative_numeric (field signed "category_id")
  /\ non_negative_numeric (field large "category_id")
  /\ non_negative_numeric (field amount "product_price")
  /\ ProductValidator.validateNewProduct (VObj signed) w = rejected w
  /\ ProductValidator.validateNewProduct (VObj large) w = rejected w
  /\ ProductValidator.validateNewProduct (VObj amount) w = rejected w
  /\ rejected w = (Return None, logged "validateNewProduct(): Validation failed" w).
Proof.
  intros w payload signed large amount.
  split; [vm_compute; reflexivity|].
  split; [vm_compute; reflexivity|].
  split; [vm_compute; reflexivity|].
  split; [eexists; split; [vm_compute; reflexivity | now left]|].
  split; [eexists; split; [vm_compute; reflexivity | now left]|].
  split; [eexists; split; [vm_compute; reflexivity | now left]|].
  repeat split; vm_compute; reflexivity.
Qed.

(** C1, amended: for every payload that passes the checks of the validator
    ([category_id] and [product_stock] convert to a text of decimal digits
    only, [product_name] and [product_description] are strings that are not
    empty, [product_price] converts to a text in the default currency format
    without sign), [validateNewProduct] returns, without throwing and without
    logging, a Product whose id is 0, whose [category_id], [product_stock]
    and [product_price] are [Number] of the fields received (a field given
    as a number is kept as it is; for a field given as a text of digits, the
    value is the double nearest to the integer the digits denote, which is
    that integer when it is below [2^53]), and whose name and description
    are the escaped texts, in which
    [<], [>], [&] and the double quote stand as [&lt;], [&gt;], [&amp;] and
    [&quot;] and no [<], [>] or double quote is left. *)
Theorem validateNewProduct_accepts :
  forall (DB : Type) (w : world DB) (fields : list (string * value)),
    well_formed fields ->
    exists (p : Product) (n d : string),
      ProductValidator.validateNewProduct (VObj fields) w = (Return (Some p), w)
      /\ field fields "product_name" = VStr n
      /\ field fields "product_description" = VStr d
      /\ id p = Num.zero
      /\ JS.Number (field fields "category_id") = Return (category_id p)
      /\ JS.Number (field fields "product_stock") = Return (product_stock p)
      /\ JS.Number (field fields "product_price") = Return (product_price p)
      /\ (forall x, field fields "category_id" = VNum x -> category_id p = x)
      /\ (forall x, field fields "product_stock" = VNum x -> product_stock p = x)
      /\ (forall s k, field fields "category_id" = VStr s -> Str.to_N s = Some k ->
            category_id p = Double.round false k 0
            /\ (k < 2 ^ 53 -> category_id p = Num.of_N k))
      /\ (forall s k, field fields "product_stock" = VStr s -> Str.to_N s = Some k ->
            product_stock p = Double.round false k 0
            /\ (k < 2 ^ 53 -> product_stock p = Num.of_N k))
      /\ product_name p = VStr (Validator.escape_string n)
      /\ product_description p = VStr (Validator.escape_string d)
      /\ Str.any is_markup (Validator.escape_string n) = false
      /\ Str.any is_markup (Validator.escape_string d) = false
      /\ Validator.escape_string "<" = "&lt;"
      /\ Validator.escape_string ">" = "&gt;"
      /\ Validator.escape_string "&" = "&amp;"
      /\ Validator.escape_string (String dquote EmptyString) = "&quot;"
      /\ (forall a b, Validator.escape_string (a ++ b)
                      = (Validator.escape_string a ++ Validator.escape_string b)%string).
Proof.
  intros DB w fields Hwf.
  pose proof (validateNewProduct_well_formed w fields Hwf) as Hrun.
  destruct Hwf as ((c & Hc & Dc) & (n & Hn & Hn') & (d & Hd & Hd')
                   & (st & Hs & Ds) & (pr & Hp & Dp)).
  destruct (ToString_Number _ _ Hc) as (pc & Pc & Tc & Nc).
  destruct (ToString_Number _ _ Hs) as (ps & Ps & Ts & Ns).
  destruct (ToString_Number _ _ Hp) as (pp & _ & _ & Np).
  exists (normalized fields), n, d.
  split; [exact Hrun|]. split; [exact Hn|]. split; [exact Hd|].
  unfold normalized, number_of; cbn [id category_id product_name
    product_description product_stock product_price].
  rewrite Hn, Hd, Nc, Ns, Np; cbn [text].
  split; [reflexivity|].
  split; [reflexivity|]. split; [reflexivity|]. split; [reflexivity|].
  split; [intros x E; rewrite E in Pc; now injection Pc as <-|].
  split; [intros x E; rewrite E in Ps; now injection Ps as <-|].
  split.
  { intros s k E Hk. rewrite E in Pc. injection Pc as <-.
    cbn [JS.ToNumber].
    rewrite E, ToString_text in Hc. injection Hc as ->.
    rewrite (of_string_digits c k Dc Hk).
    split; [reflexivity | apply round_integer]. }
  split.
  { intros s k E Hk. rewrite E in Ps. injection Ps as <-.
    cbn [JS.ToNumber].
    rewrite E, ToString_text in Hs. injection Hs as ->.
    rewrite (of_string_digits st k Ds Hk).
    split; [reflexivity | apply round_integer]. }
  split; [reflexivity|]. split; [reflexivity|].
  split; [apply escape_no_markup|]. split; [apply escape_no_markup|].
  repeat (split; [reflexivity|]). exact escape_append.
Qed.

Lemma widget_well_formed : well_formed widget.
Proof.
  split; [eexists; split; vm_compute; reflexivity|].
  split; [exists "Widget"; split; [reflexivity | discriminate]|].
  split; [exists "A <b>widget</b>"; split; [reflexivity | discriminate]|].
  split; eexists; split; vm_compute; reflexivity.
Defined.

Lemma validateNewProduct_accepts_witness :
  well_formed widget
  /\ exists p,
       ProductValidator.validateNewProduct (VObj widget) (initial_world Storage.empty)
       = (Return (Some p), initial_world Storage.empty)
       /\ id p = Num.zero
       /\ category_id p = Num.of_N 1
       /\ product_stock p = Num.of_N 10
       /\ product_description p = VStr "A &lt;b&gt;widget&lt;&#x2F;b&gt;".
Proof.
  split; [exact widget_well_formed|].
  destruct (validateNewProduct_accepts Storage.db (initial_world Storage.empty)
              widget widget_well_formed)
    as (p & n & d & Hrun & _ & Hd & Hid & _ & _ & _ & Hc & _ & _ & Hs & _ & Hd' & _).
  exists p. split; [exact Hrun|]. split; [exact Hid|].
  split; [exact (Hc (Num.of_N 1) eq_refl)|].
  split; [exact (proj2 (Hs "10" 10 eq_refl eq_refl) eq_refl)|].
  injection Hd as <-. exact Hd'.
Defined.

(** C2, as the claim states it, fails: a payload whose [category_id] is
    numeric and whose [product_name] is missing, or is a number, does not
    validate, and the validator throws a [TypeError] instead of returning
    [undefined]. *)
Lemma validateNewProduct_throws_on_text_field :
  let w := initial_world Storage.empty in
  let missing := VObj [("category_id", VNum (Num.of_N 1))] in
  let not_text := VObj [("category_id", VNum (Num.of_N 1));
                        ("product_name", VNum (Num.of_N 5))] in
  ProductValidator.validateNewProduct missing w
  = (Throw (TypeError "Expected a string but received a undefined"), w)
  /\ ProductValidator.validateNewProduct not_text w
     = (Throw (TypeError "Expected a string but received a number"), w)
  /\ ~ (exists w', ProductValidator.validateNewProduct missing w = (Return None, w')).
Proof.
  split; [vm_compute; reflexivity|]. split; [vm_compute; reflexivity|].
  intros [w' H]. vm_compute in H. discriminate H.
Qed.

(** C2, amended: for every object payload whose [product_name] and
    [product_description] are strings, whose [category_id], [product_stock]
    and [product_price] convert to text (none is an object with a property
    named [toString], nor an array holding one) and that does not validate,
    [validateNewProduct] returns [undefined] without throwing; it writes the
    one line [Validation failed], whatever the check that failed, and leaves
    storage and the response alone.  A payload whose [category_id] is numeric
    and whose [product_name] is not a string makes it throw a [TypeError],
    and a payload whose [category_id] does not convert to text makes it
    throw the error of the conversion. *)
Theorem validateNewProduct_rejects :
  forall (DB : Type) (w : world DB) (fields : list (string * value)),
    (forall n d,
       field fields "product_name" = VStr n ->
       field fields "product_description" = VStr d ->
       printable (field fields "category_id") = true ->
       printable (field fields "product_stock") = true ->
       printable (field fields "product_price") = true ->
       (forall p w', ProductValidator.validateNewProduct (VObj fields) w
                     <> (Return (Some p), w')) ->
       ProductValidator.validateNewProduct (VObj fields) w
       = (Return None, logged "validateNewProduct(): Validation failed" w))
    /\ (prints_as Str.all_digits (field fields "category_id") ->
        (forall s, field fields "product_name" <> VStr s) ->
        exists m, ProductValidator.validateNewProduct (VObj fields) w
                  = (Throw (TypeError m), w))
    /\ (forall e, JS.ToString (field fields "category_id") = Throw e ->
        ProductValidator.validateNewProduct (VObj fields) w = (Throw e, w)).
Proof.
  intros DB w fields. split; [|split].
  - intros n d Hn Hd Pc Ps Pp Hfail.
    destruct (printable_prints _ Pc) as [c Hc].
    destruct (printable_prints _ Ps) as [st Hs].
    destruct (printable_prints _ Pp) as [pr Hp].
    rewrite validateNewProduct_run, Hc, Hn, Hd, Hs, Hp in Hfail |- *.
    unfold rejected in *.
    destruct (negb (Str.all_digits c)); [reflexivity|].
    destruct (Str.is_empty n); [reflexivity|].
    destruct (Str.is_empty d); [reflexivity|].
    destruct (negb (Str.all_digits st)); [reflexivity|].
    destruct (Validator.currency_pattern pr); [|reflexivity].
    now destruct (Hfail _ _ eq_refl).
  - intros Hc Hn. eexists. now apply validateNewProduct_name_not_string.
  - intros e He. now rewrite validateNewProduct_run, He.
Qed.

Lemma validateNewProduct_rejects_witness :
  let fields := [("category_id", VStr "abc"); ("product_name", VStr "Widget");
                 ("product_description", VStr "A widget");
                 ("product_stock", VNum (Num.of_N 10)); ("product_price", VStr "9.99")] in
  ProductValidator.validateNewProduct (VObj fields) (initial_world Storage.empty)
  = (Return None,
     logged "validateNewProduct(): Validation failed" (initial_world Storage.empty)).
Proof.
  intros fields.
  apply (proj1 (validateNewProduct_rejects Storage.db (initial_world Storage.empty) fields)
           "Widget" "A widget");
    [reflexivity | reflexivity | reflexivity | reflexivity | reflexivity |].
  intros p w' H. vm_compute in H. discriminate H.
Defined.


Section Claims.
Context {DB : Type}.
Variable prisma : request -> DB -> outcome value * DB.
Variable vid : value -> value.

Lemma get_all_storage_failure (req : http_request) (w : world DB) e db :
  res w = fresh_response ->
  prisma (FindMany None) (store w) = (Throw e, db) ->
  exists w', ProductController.get_all prisma req w = (Return tt, w')
             /\ res w' = ok_json VUndefined.
Proof.
  intros Hr Hq. eexists. split.
  {  unfold ProductController.get_all. eapply respond_fresh.
  - rewrite service_getProducts_eq.
    unfold ProductData.getProducts.
    rewrite (guarded_throws prisma _ _ w e db Hq). reflexivity.
  - exact Hr. }
  reflexivity.
Qed.

Lemma get_by_id_storage_failure (req : http_request) (w : world DB) e db :
  res w = fresh_response ->
  JS.truthy (vid (param req "id")) = true ->
  prisma (FindUnique ("id", vid (param req "id"))) (store w) = (Throw e, db) ->
  exists w', ProductController.get_by_id prisma vid req w = (Return tt, w')
             /\ res w' = ok_json VUndefined.
Proof.
  intros Hr Hv Hq. eexists. split.
  {  unfold ProductController.get_by_id. eapply respond_fresh.
  - rewrite (service_getProductById_valid prisma vid _ w Hv).
    unfold ProductData.getProductById.
    rewrite (guarded_throws prisma _ _ w e db Hq). reflexivity.
  - exact Hr. }
  reflexivity.
Qed.

Lemma get_by_cat_storage_failure (req : http_request) (w : world DB) e db :
  res w = fresh_response ->
  param req "catId" <> VUndefined ->
  JS.truthy (vid (param req "catId")) = true ->
  prisma (FindMany (Some ("category_id", vid (param req "catId")))) (store w)
  = (Throw e, db) ->
  exists w', ProductController.get_by_cat prisma vid req w = (Return tt, w')
             /\ res w' = ok_json VUndefined.
Proof.
  intros Hr Hd Hv Hq. eexists. split.
  {  unfold ProductController.get_by_cat.
  rewrite (typeof_undefined _ Hd). unfold bind at 1, ret at 1.
  eapply respond_fresh.
  - rewrite (service_getProductsByCatId_valid prisma vid _ w Hv).
    unfold ProductData.getProductsByCatId.
    rewrite (guarded_throws prisma _ _ w e db Hq). reflexivity.
  - exact Hr. }
  reflexivity.
Qed.

Lemma post_storage_failure (req : http_request) (w : world DB)
    (fields : list (string * value)) e db :
  res w = fresh_response ->
  req_body req = VObj fields ->
  printable (req_body req) = true ->
  well_formed fields ->
  prisma (Create (ProductData.create_data (normalized fields))) (store w)
  = (Throw e, db) ->
  exists w', ProductController.post prisma req w = (Return tt, w')
             /\ res w' = ok_json VUndefined.
Proof.
  intros Hr Hb Hp Hwf Hq. destruct (printable_prints _ Hp) as [t Ht].
  eexists. split.
  {  unfold ProductController.post. rewrite Ht, Hb. simpl JS.typeof. cbv iota.
  unfold bind at 1, ret at 1. unfold bind at 1, lift at 1.
  unfold bind at 1, console_log at 1.
  eapply respond_fresh.
  - unfold ProductService.addNewProduct. unfold bind at 1.
    rewrite (validateNewProduct_well_formed _ fields Hwf).
    rewrite bind_ret_id. unfold ProductData.createProduct.
    erewrite guarded_throws by exact Hq. reflexivity.
  - exact Hr. }
  reflexivity.
Qed.

(** C3: each of the four data-access functions swallows the errors of
    storage: whatever the ORM does the function returns, and when the ORM
    call throws, the function logs its label with the message of the error,
    nothing else, and returns [undefined].  When that [undefined] reaches a
    handler whose response is untouched, the handler answers [res.json] of
    it: status 200 with an empty JSON body, not 500; for the handler of
    [POST /] this holds of a body that converts to text, the handler putting
    it in a log line before its [try] block. *)
Theorem storage_errors_swallowed :
  swallows prisma (ProductData.getProducts prisma)
    "DB Error - get all products: " (FindMany None)
  /\ (forall i, swallows prisma (ProductData.getProductById prisma i)
        "DB Error - get product by id: " (FindUnique ("id", i)))
  /\ (forall c, swallows prisma (ProductData.getProductsByCatId prisma c)
        "DB Error - get products by category: " (FindMany (Some ("category_id", c))))
  /\ (forall p, swallows prisma (ProductData.createProduct prisma p)
        "DB Error - create product: " (Create (ProductData.create_data p)))
  /\ (forall req w e db,
        res w = fresh_response ->
        prisma (FindMany None) (store w) = (Throw e, db) ->
        exists w', ProductController.get_all prisma req w = (Return tt, w')
                   /\ res w' = ok_json VUndefined)
  /\ (forall req w e db,
        res w = fresh_response ->
        JS.truthy (vid (param req "id")) = true ->
        prisma (FindUnique ("id", vid (param req "id"))) (store w) = (Throw e, db) ->
        exists w', ProductController.get_by_id prisma vid req w = (Return tt, w')
                   /\ res w' = ok_json VUndefined)
  /\ (forall req w e db,
        res w = fresh_response ->
        param req "catId" <> VUndefined ->
        JS.truthy (vid (param req "catId")) = true ->
        prisma (FindMany (Some ("category_id", vid (param req "catId")))) (store w)
        = (Throw e, db) ->
        exists w', ProductController.get_by_cat prisma vid req w = (Return tt, w')
                   /\ res w' = ok_json VUndefined)
  /\ (forall req w fields e db,
        res w = fresh_response ->
        req_body req = VObj fields ->
        printable (req_body req) = true ->
        well_formed fields ->
        prisma (Create (ProductData.create_data (normalized fields))) (store w)
        = (Throw e, db) ->
        exists w', ProductController.post prisma req w = (Return tt, w')
                   /\ res w' = ok_json VUndefined).
Proof.
  split; [apply guarded_swallows|].
  split; [intros i; apply guarded_swallows|].
  split; [intros c; apply guarded_swallows|].
  split; [intros p; apply guarded_swallows|].
  split; [exact get_all_storage_failure|].
  split; [exact get_by_id_storage_failure|].
  split; [exact get_by_cat_storage_failure | exact post_storage_failure].
Qed.

(** C4: for every id that [validateId] rejects, [getProductById] and
    [getProductsByCatId] return the string [Invalid product id] and leave the
    world as it was, so that no data-access call is made; the handler of
    [GET /:id], and that of [GET /bycat/:catId] for a parameter that is
    present, send that string as JSON under status 200. *)
Theorem invalid_id_sentinel :
  forall (id_ : value) (w : world DB),
    JS.truthy (vid id_) = false ->
    ProductService.getProductById prisma vid id_ w
    = (Return (VStr "Invalid product id"), w)
    /\ ProductService.getProductsByCatId prisma vid id_ w
       = (Return (VStr "Invalid product id"), w)
    /\ (forall req, param req "id" = id_ -> res w = fresh_response ->
          ProductController.get_by_id prisma vid req w
          = (Return tt, with_response (ok_json (VStr "Invalid product id")) w))
    /\ (forall req, param req "catId" = id_ -> id_ <> VUndefined ->
          res w = fresh_response ->
          ProductController.get_by_cat prisma vid req w
          = (Return tt, with_response (ok_json (VStr "Invalid product id")) w)).
Proof.
  intros id_ w Hv.
  split; [now apply service_getProductById_invalid|].
  split; [now apply service_getProductsByCatId_invalid|].
  split.
  - intros req Hp Hr. unfold ProductController.get_by_id. rewrite Hp.
    apply respond_fresh; [now apply service_getProductById_invalid | exact Hr].
  - intros req Hp Hd Hr. unfold ProductController.get_by_cat. rewrite Hp.
    rewrite (typeof_undefined _ Hd). unfold bind at 1, ret at 1.
    apply respond_fresh; [now apply service_getProductsByCatId_invalid | exact Hr].
Qed.

(** C5, amended: when [catId] is [undefined] the handler sends status 400
    with the body [{content: "error"}] and does not return: it goes on into
    the [try] block and calls the service with [undefined].  The service
    issues the data-access query only if [validateId] accepts [undefined];
    otherwise no query reaches storage.  Either way [res.json] then throws,
    the response being sent already, the [catch] sets the status field to
    500 and [res.send] throws out of the handler; the client keeps the 400. *)
Theorem get_by_cat_missing_catId :
  forall (req : http_request) (w : world DB),
    param req "catId" = VUndefined ->
    sent (res w) = None ->
    let msg := "Bad Request - missing cat id" in
    let out := ProductController.get_by_cat prisma vid req w in
    out = ProductController.respond
            (ProductService.getProductsByCatId prisma vid VUndefined)
            (with_response (bad_request_sent msg) w)
    /\ fst out = Throw Res.headers_sent_error
    /\ sent (res (snd out)) = sent (bad_request_sent msg)
    /\ statusCode (res (snd out)) = 500%Z
    /\ queries (snd out)
       = (if JS.truthy (vid VUndefined)
          then queries w ++ [FindMany (Some ("category_id", vid VUndefined))]
          else queries w)%list.
Proof.
  intros req w Hp Hs msg out. subst out.
  assert (Hout : ProductController.get_by_cat prisma vid req w
          = ProductController.respond
              (ProductService.getProductsByCatId prisma vid VUndefined)
              (with_response (bad_request_sent msg) w)).
  { unfold ProductController.get_by_cat. rewrite Hp. simpl JS.typeof. cbv iota.
    unfold bind at 1. now rewrite (bad_request_fresh "Bad Request - missing cat id" w Hs). }
  split; [exact Hout|]. rewrite Hout. clear Hout.
  set (w4 := with_response (bad_request_sent msg) w).
  destruct (JS.truthy (vid VUndefined)) eqn:Hv.
  - pose proof (guarded_swallows prisma "DB Error - get products by category: "
                  (FindMany (Some ("category_id", vid VUndefined))) w4) as [[v [w5 Hrun]] _].
    pose proof (guarded_frame prisma "DB Error - get products by category: "
                  (FindMany (Some ("category_id", vid VUndefined))) w4) as [Hq Hr].
    rewrite Hrun in Hq, Hr. simpl in Hq, Hr.
    assert (Hrun' : ProductService.getProductsByCatId prisma vid VUndefined w4
                    = (Return v, w5))
      by (rewrite (service_getProductsByCatId_valid prisma vid _ w4 Hv); exact Hrun).
    rewrite (respond_after_sent _ w4 w5 v _ Hrun' (f_equal sent Hr)).
    simpl. repeat split. exact Hq.
  - pose proof (service_getProductsByCatId_invalid prisma vid VUndefined w4 Hv) as Hrun.
    rewrite (respond_after_sent _ w4 w4 _ _ Hrun eq_refl).
    simpl. repeat split.
Qed.

(** C7, amended: when the ORM answers [null] for an id that matches no row
    and throws on a storage failure, [getProductById] returns [null] in the
    first case and [undefined] in the second.  Neither call throws and both
    results are falsy, so a test of truthiness cannot tell them apart; the
    two values are nevertheless different. *)
Theorem not_found_and_failure_are_falsy :
  forall (id_ : value) (w1 w2 : world DB) db1 e db2,
    prisma (FindUnique ("id", id_)) (store w1) = (Return VNull, db1) ->
    prisma (FindUnique ("id", id_)) (store w2) = (Throw e, db2) ->
    exists v1 v2,
      fst (ProductData.getProductById prisma id_ w1) = Return v1
      /\ fst (ProductData.getProductById prisma id_ w2) = Return v2
      /\ v1 = VNull /\ v2 = VUndefined
      /\ JS.truthy v1 = false /\ JS.truthy v2 = false
      /\ v1 <> v2.
Proof.
  intros id_ w1 w2 db1 e db2 H1 H2. exists VNull, VUndefined.
  unfold ProductData.getProductById.
  rewrite (guarded_returns prisma _ _ w1 _ _ H1), (guarded_throws prisma _ _ w2 _ _ H2).
  repeat split. discriminate.
Qed.

(** C10: data access puts the identifier it is given, unchanged, in the
    where-clause of the one ORM call it makes; the service hands it the value
    [validateId] produced, not the route parameter it received. *)
Theorem validated_id_forwarded :
  forall (w : world DB),
    (forall v, queries (snd (ProductData.getProductById prisma v w))
               = (queries w ++ [FindUnique ("id", v)])%list)
    /\ (forall v, queries (snd (ProductData.getProductsByCatId prisma v w))
                  = (queries w ++ [FindMany (Some ("category_id", v))])%list)
    /\ (forall id_, JS.truthy (vid id_) = true ->
          queries (snd (ProductService.getProductById prisma vid id_ w))
          = (queries w ++ [FindUnique ("id", vid id_)])%list
          /\ queries (snd (ProductService.getProductsByCatId prisma vid id_ w))
             = (queries w ++ [FindMany (Some ("category_id", vid id_))])%list)
    /\ (forall id_, JS.truthy (validateId id_) = true ->
          exists n, 0 < n
            /\ validateId id_ = VNum (Num.of_N n)
            /\ (forall s, validateId id_ <> VStr s)
            /\ queries (snd (ProductService.getProductById prisma validateId id_ w))
               = (queries w ++ [FindUnique ("id", VNum (Num.of_N n))])%list
            /\ queries (snd (ProductService.getProductsByCatId prisma validateId id_ w))
               = (queries w ++ [FindMany (Some ("category_id", VNum (Num.of_N n)))])%list).
Proof.
  intros w.
  assert (H1 : forall v, queries (snd (ProductData.getProductById prisma v w))
               = (queries w ++ [FindUnique ("id", v)])%list)
    by (intros v; apply guarded_frame).
  assert (H2 : forall v, queries (snd (ProductData.getProductsByCatId prisma v w))
               = (queries w ++ [FindMany (Some ("category_id", v))])%list)
    by (intros v; apply guarded_frame).
  split; [exact H1|]. split; [exact H2|]. split.
  - intros id_ Hv.
    rewrite (service_getProductById_valid prisma vid _ w Hv),
            (service_getProductsByCatId_valid prisma vid _ w Hv).
    split; [apply H1 | apply H2].
  - intros id_ Hv.
    destruct (validateId_truthy id_ Hv) as (s & n & _ & _ & _ & Hn & E).
    exists n. split; [exact Hn|]. split; [exact E|].
    split; [intros s'; rewrite E; discriminate|].
    rewrite (service_getProductById_valid prisma validateId _ w Hv),
            (service_getProductsByCatId_valid prisma validateId _ w Hv).
    rewrite E. split; [apply H1 | apply H2].
Qed.

End Claims.

(** ** Storage with auto-assigned ids *)

Lemma storage_create (d : Storage.db) (data : list (string * value)) :
  Storage.online d = true ->
  Storage.prisma (Create data) d
  = (Return (VObj (("id", VNum (Num.of_N (Storage.next_id d))) :: data)),
     Storage.mkDb
       (Storage.rows d ++ [("id", VNum (Num.of_N (Storage.next_id d))) :: data])
       (N.succ (Storage.next_id d)) (Storage.online d)).
Proof. intros H. unfold Storage.prisma. now rewrite H. Qed.

Lemma well_keyed_create (d : Storage.db) (data : list (string * value)) :
  Storage.well_keyed d ->
  Storage.well_keyed
    (Storage.mkDb
       (Storage.rows d ++ [("id", VNum (Num.of_N (Storage.next_id d))) :: data])
       (N.succ (Storage.next_id d)) (Storage.online d)).
Proof.
  intros [Hpos Hrows]. split; simpl; [lia|].
  intros row Hin. apply in_app_or in Hin. destruct Hin as [Hin|[<-|[]]].
  - destruct (Hrows row Hin) as (n & Hn & Hlt). exists n. split; [exact Hn | lia].
  - exists (Storage.next_id d). split; [reflexivity | lia].
Qed.

Lemma well_keyed_empty : Storage.well_keyed Storage.empty.
Proof. split; simpl; [reflexivity | intros row []]. Defined.

(** No call on the ORM breaks the keying of the rows. *)
Lemma well_keyed_step (q : request) (d : Storage.db) :
  Storage.well_keyed d -> Storage.well_keyed (snd (Storage.prisma q d)).
Proof.
  intros Hk. unfold Storage.prisma.
  destruct (Storage.online d) eqn:Hon; simpl; [|exact Hk].
  destruct q as [[[k v]|]|[k v]|data]; simpl; try exact Hk.
  - destruct v; exact Hk.
  - destruct v; exact Hk.
  - pose proof (well_keyed_create d data Hk) as H. now rewrite Hon in H.
Qed.

(** C6: [createProduct] makes one ORM call, [create], whose data are the
    five fields of the validated product and hold no [id], whatever id the
    product carries, and it returns the row the ORM answers.  On a storage
    that assigns ids and whose rows all have a positive id, the row returned
    carries the id storage assigned, positive and borne by no earlier row,
    and every stored row still has a positive id; the empty storage is so
    keyed and no call on the ORM breaks it. *)
Theorem createProduct_inserts :
  forall (DB : Type) (prisma : request -> DB -> outcome value * DB)
         (p : Product) (w : world DB),
    queries (snd (ProductData.createProduct prisma p w))
    = (queries w ++ [Create (ProductData.create_data p)])%list
    /\ ProductData.create_data p
       = [ ("category_id", VNum (category_id p));
           ("product_name", product_name p);
           ("product_description", product_description p);
           ("product_stock", VNum (product_stock p));
           ("product_price", VNum (product_price p)) ]
    /\ JS.lookup "id" (ProductData.create_data p) = None
    /\ (forall i,
          ProductData.create_data
            (mkProduct i (category_id p) (product_name p) (product_description p)
               (product_stock p) (product_price p))
          = ProductData.create_data p)
    /\ (forall row db,
          prisma (Create (ProductData.create_data p)) (store w) = (Return row, db) ->
          ProductData.createProduct prisma p w
          = (Return row, queried (Create (ProductData.create_data p)) db w))
    /\ (forall ws : world Storage.db,
          Storage.well_keyed (store ws) ->
          Storage.online (store ws) = true ->
          let row := ("id", VNum (Num.of_N (Storage.next_id (store ws))))
                     :: ProductData.create_data p in
          let out := ProductData.createProduct Storage.prisma p ws in
          fst out = Return (VObj row)
          /\ Storage.rows (store (snd out)) = (Storage.rows (store ws) ++ [row])%list
          /\ 0 < Storage.next_id (store ws)
          /\ (forall old, In old (Storage.rows (store ws)) ->
                Storage.row_id old <> Storage.row_id row)
          /\ Storage.well_keyed (store (snd out)))
    /\ Storage.well_keyed Storage.empty
    /\ (forall q d, Storage.well_keyed d ->
          Storage.well_keyed (snd (Storage.prisma q d))).
Proof.
  intros DB prisma p w.
  split; [apply guarded_frame|].
  split; [reflexivity|]. split; [reflexivity|]. split; [reflexivity|].
  split; [intros row db H; now apply guarded_returns|].
  split; [|split; [exact well_keyed_empty | exact well_keyed_step]].
  intros ws Hk Hon row out. subst out row.
  unfold ProductData.createProduct.
  rewrite (guarded_returns Storage.prisma _ _ ws _ _ (storage_create _ _ Hon)).
  simpl. split; [reflexivity|]. split; [reflexivity|].
  split; [apply Hk|]. split.
  - intros old Hin. destruct Hk as [_ Hrows].
    destruct (Hrows old Hin) as (n & Hn & Hlt). rewrite Hn.
    unfold Storage.row_id. simpl. intros E. injection E as E. lia.
  - now apply well_keyed_create.
Qed.

Lemma createProduct_inserts_witness :
  Storage.well_keyed Storage.empty
  /\ fst (ProductData.createProduct Storage.prisma (normalized widget)
            (initial_world Storage.empty))
     = Return (VObj (("id", VNum (Num.of_N 1))
                     :: ProductData.create_data (normalized widget))).
Proof.
  split; [exact well_keyed_empty|].
  exact (proj1 (proj1 (proj2 (proj2 (proj2 (proj2 (proj2
           (createProduct_inserts Storage.db Storage.prisma (normalized widget)
              (initial_world Storage.empty)))))))
           (initial_world Storage.empty) well_keyed_empty eq_refl)).
Defined.

(** ** Runs on the storage model *)

Lemma storage_errors_swallowed_witness :
  res (initial_world Storage.offline) = fresh_response
  /\ Storage.prisma (FindMany None) Storage.offline
     = (Throw Storage.connection_error, Storage.offline)
  /\ (exists w',
       ProductController.get_all Storage.prisma (mkRequest [] VUndefined)
         (initial_world Storage.offline) = (Return tt, w')
       /\ res w' = ok_json VUndefined)
  /\ printable (VObj widget) = true
  /\ Storage.prisma (Create (ProductData.create_data (normalized widget)))
       Storage.offline
     = (Throw Storage.connection_error, Storage.offline)
  /\ (exists w',
       ProductController.post Storage.prisma (mkRequest [] (VObj widget))
         (initial_world Storage.offline) = (Return tt, w')
       /\ res w' = ok_json VUndefined).
Proof.
  split; [reflexivity|]. split; [reflexivity|].
  split.
  { exact (proj1 (proj2 (proj2 (proj2 (proj2
             (storage_errors_swallowed Storage.prisma validateId)))))
             (mkRequest [] VUndefined) (initial_world Storage.offline)
             Storage.connection_error Storage.offline eq_refl eq_refl). }
  split; [reflexivity|]. split; [reflexivity|].
  apply (proj2 (proj2 (proj2 (proj2 (proj2 (proj2 (proj2
           (storage_errors_swallowed Storage.prisma validateId))))))))
    with (fields := widget) (e := Storage.connection_error)
         (db := Storage.offline);
    [reflexivity | reflexivity | reflexivity | exact widget_well_formed
    | reflexivity].
Defined.

Lemma invalid_id_sentinel_witness :
  JS.truthy (validateId (VStr "abc")) = false
  /\ ProductController.get_by_id Storage.prisma validateId
       (mkRequest [("id", VStr "abc")] VUndefined) (initial_world Storage.empty)
     = (Return tt,
        with_response (ok_json (VStr "Invalid product id"))
          (initial_world Storage.empty)).
Proof.
  split; [reflexivity|].
  exact (proj1 (proj2 (proj2
           (invalid_id_sentinel Storage.prisma validateId (VStr "abc")
              (initial_world Storage.empty) eq_refl)))
           (mkRequest [("id", VStr "abc")] VUndefined) eq_refl eq_refl).
Defined.

(** C5, as the claim states it, fails: with [catId] missing, the handler
    sends status 400 and goes on to call the service, but the service
    rejects [undefined] and no query reaches data access or storage. *)
Lemma missing_catId_issues_no_query :
  let out := ProductController.get_by_cat Storage.prisma validateId
               (mkRequest [] VUndefined) (initial_world Storage.empty) in
  queries (snd out) = []
  /\ store (snd out) = Storage.empty
  /\ console (snd out) = []
  /\ sent (res (snd out)) = sent (bad_request_sent "Bad Request - missing cat id")
  /\ fst out = Throw Res.headers_sent_error.
Proof. repeat split. Qed.

Lemma get_by_cat_missing_catId_witness :
  param (mkRequest [] VUndefined) "catId" = VUndefined
  /\ sent (res (initial_world Storage.empty)) = None
  /\ fst (ProductController.get_by_cat Storage.prisma validateId
            (mkRequest [] VUndefined) (initial_world Storage.empty))
     = Throw Res.headers_sent_error.
Proof.
  split; [reflexivity|]. split; [reflexivity|].
  exact (proj1 (proj2
           (get_by_cat_missing_catId Storage.prisma validateId
              (mkRequest [] VUndefined) (initial_world Storage.empty)
              eq_refl eq_refl))).
Defined.

(** C7, as the claim states it, fails: on a store without the row,
    [getProductById] returns [null]; on a store that is offline it returns
    [undefined]; the two results differ. *)
Lemma not_found_differs_from_failure :
  let id_ := VNum (Num.of_N 999) in
  let found := fst (ProductData.getProductById Storage.prisma id_
                      (initial_world Storage.empty)) in
  let failed := fst (ProductData.getProductById Storage.prisma id_
                       (initial_world Storage.offline)) in
  found = Return VNull /\ failed = Return VUndefined /\ found <> failed.
Proof.
  split; [reflexivity|]. split; [reflexivity|]. discriminate.
Qed.

Lemma not_found_and_failure_are_falsy_witness :
  let id_ := VNum (Num.of_N 999) in
  Storage.prisma (FindUnique ("id", id_)) Storage.empty = (Return VNull, Storage.empty)
  /\ Storage.prisma (FindUnique ("id", id_)) Storage.offline
     = (Throw Storage.connection_error, Storage.offline)
  /\ exists v1 v2,
       fst (ProductData.getProductById Storage.prisma id_ (initial_world Storage.empty))
       = Return v1
       /\ fst (ProductData.getProductById Storage.prisma id_ (initial_world Storage.offline))
          = Return v2
       /\ v1 = VNull /\ v2 = VUndefined
       /\ JS.truthy v1 = false /\ JS.truthy v2 = false
       /\ v1 <> v2.
Proof.
  intros id_. split; [reflexivity|]. split; [reflexivity|].
  exact (not_found_and_failure_are_falsy Storage.prisma id_
           (initial_world Storage.empty) (initial_world Storage.offline)
           Storage.empty Storage.connection_error Storage.offline eq_refl eq_refl).
Defined.

Lemma validated_id_forwarded_witness :
  JS.truthy (validateId (VStr "4")) = true
  /\ queries (snd (ProductService.getProductsByCatId Storage.prisma validateId
                     (VStr "4") (initial_world Storage.empty)))
     = [FindMany (Some ("category_id", validateId (VStr "4")))].
Proof.
  split; [reflexivity|].
  exact (proj2 (proj1 (proj2 (proj2
           (validated_id_forwarded Storage.prisma validateId
              (initial_world Storage.empty))))
           (VStr "4") eq_refl)).
Defined.

(** * Further properties *)

(** ** validators/productValidator.js: the outcome on every payload *)

Section ValidatorOutcomes.
Context {DB : Type}.

Lemma is_text_dec (v : value) : (exists s, v = VStr s) \/ (forall s, v <> VStr s).
Proof. destruct v; try (right; intros s'; discriminate). left. now exists s. Qed.

Ltac not_text H :=
  match goal with
  | |- context [match ?v with VStr _ => _ | _ => _ end] =>
      let E := fresh "E" in
      destruct v eqn:E; try (eexists; reflexivity);
      exfalso; eapply H; reflexivity
  end.

(** The four outcomes of the validator on an object. *)
Lemma validate_object_cases (fields : list (string * value)) (w : world DB) :
  (well_formed fields
   /\ ProductValidator.validateNewProduct (VObj fields) w
      = (Return (Some (normalized fields)), w))
  \/ (ProductValidator.validateNewProduct (VObj fields) w
      = (Return None, logged "validateNewProduct(): Validation failed" w))
  \/ (throws_on (VObj fields)
      /\ exists m, ProductValidator.validateNewProduct (VObj fields) w
                   = (Throw (TypeError m), w))
  \/ (exists k e,
        In k ["category_id"; "product_stock"; "product_price"]
        /\ JS.ToString (field fields k) = Throw e
        /\ ProductValidator.validateNewProduct (VObj fields) w = (Throw e, w)).
Proof.
  rewrite validateNewProduct_run. unfold rejected.
  destruct (JS.ToString (field fields "category_id")) as [c|e] eqn:Hc.
  2:{ right; right; right. exists "category_id", e. simpl. auto. }
  destruct (Str.all_digits c) eqn:Dc; cbn [negb]; [|now right; left].
  assert (Pc : prints_as Str.all_digits (field fields "category_id"))
    by (exists c; now split).
  destruct (is_text_dec (field fields "product_name")) as [[n Hn]|Hn].
  2:{ right; right; left. split; [split; [exact Pc | now left]|].
      not_text Hn. }
  rewrite Hn. destruct n as [|a n']; [now right; left|]. cbn [Str.is_empty].
  destruct (is_text_dec (field fields "product_description")) as [[d Hd]|Hd].
  2:{ right; right; left. split.
      - split; [exact Pc|]. right. exists (String a n'). now repeat split.
      - not_text Hd. }
  rewrite Hd. destruct d as [|a' d']; [now right; left|]. cbn [Str.is_empty].
  destruct (JS.ToString (field fields "product_stock")) as [st|e] eqn:Hs.
  2:{ right; right; right. exists "product_stock", e. simpl. auto. }
  destruct (Str.all_digits st) eqn:Ds; cbn [negb]; [|now right; left].
  destruct (JS.ToString (field fields "product_price")) as [pr|e] eqn:Hp.
  2:{ right; right; right. exists "product_price", e. simpl. auto. }
  destruct (Validator.currency_pattern pr) eqn:Dp; [|now right; left].
  left. split; [|reflexivity].
  split; [exact Pc|]. split; [exists (String a n'); now split|].
  split; [exists (String a' d'); now split|].
  split; [exists st | exists pr]; now split.
Qed.

(** The payloads of [throws_on] make the validator throw. *)
Lemma throws_on_throws (fields : list (string * value)) (w : world DB) :
  throws_on (VObj fields) ->
  exists m, ProductValidator.validateNewProduct (VObj fields) w
            = (Throw (TypeError m), w).
Proof.
  intros [(c & Hc & Dc) Ht]. rewrite validateNewProduct_run, Hc, Dc. cbn [negb].
  destruct Ht as [Hn|(n & Hn & Hne & Hd)].
  - not_text Hn.
  - rewrite Hn. destruct n; [now destruct Hne|]. cbn [Str.is_empty].
    not_text Hd.
Qed.

(** A printable value converts to text. *)
Lemma printable_no_throw (v : value) (e : error) :
  printable v = true -> JS.ToString v <> Throw e.
Proof.
  intros H E. destruct (printable_prints v H) as [s Hs]. congruence.
Qed.

(** On an object whose three converted fields are printable, the fourth
    outcome is excluded. *)
Lemma printable_fields_convert (fields : list (string * value)) :
  printable_payload (VObj fields) = true ->
  forall k e, In k ["category_id"; "product_stock"; "product_price"] ->
              JS.ToString (field fields k) <> Throw e.
Proof.
  unfold printable_payload. rewrite !andb_true_iff.
  intros (_ & (Hc & Hs) & Hp) k e Hk. simpl in Hk.
  destruct Hk as [<-|[<-|[<-|[]]]]; now apply printable_no_throw.
Qed.

End ValidatorOutcomes.

(** X1: [validateNewProduct] returns a product exactly for the objects that
    are well formed; the product is then the normalized one and nothing is
    logged.  Arrays, strings, numbers and booleans are never accepted. *)
Theorem validateNewProduct_accepts_exactly :
  forall (DB : Type) (w : world DB) (v : value),
    (forall p w',
       ProductValidator.validateNewProduct v w = (Return (Some p), w') ->
       exists fields,
         v = VObj fields /\ well_formed fields /\ p = normalized fields /\ w' = w)
    /\ ((exists fields, v = VObj fields /\ well_formed fields) ->
        exists p, ProductValidator.validateNewProduct v w = (Return (Some p), w)).
Proof.
  intros DB w v. split.
  - intros p w' H. destruct v as [| |b|x|s|l|fields];
      try (rewrite validate_primitive in H by (intros; discriminate);
           discriminate H);
      try discriminate H.
    exists fields.
    destruct (validate_object_cases fields w)
      as [[Hwf E]|[E|[[_ [m E]]|(k & e & _ & _ & E)]]];
      rewrite E in H; try discriminate H.
    injection H as <- <-.
    split; [reflexivity|]. split; [exact Hwf|]. split; reflexivity.
  - intros (fields & -> & Hwf). exists (normalized fields).
    now apply validateNewProduct_well_formed.
Qed.

Lemma validateNewProduct_accepts_exactly_witness :
  ProductValidator.validateNewProduct (VObj widget) (initial_world Storage.empty)
  = (Return (Some (normalized widget)), initial_world Storage.empty)
  /\ exists fields,
       VObj widget = VObj fields /\ well_formed fields
       /\ normalized widget = normalized fields
       /\ initial_world Storage.empty = initial_world Storage.empty.
Proof.
  assert (H : ProductValidator.validateNewProduct (VObj widget)
                 (initial_world Storage.empty)
               = (Return (Some (normalized widget)), initial_world Storage.empty))
    by (vm_compute; reflexivity).
  split; [exact H|].
  exact (proj1 (validateNewProduct_accepts_exactly Storage.db
                  (initial_world Storage.empty) (VObj widget))
           (normalized widget) (initial_world Storage.empty) H).
Defined.

(** X2: on a payload whose fields convert to text, [validateNewProduct]
    throws exactly on [null], on [undefined] and on the objects whose
    [category_id] is numeric and whose [product_name] is not a string, or is
    a non-empty string while [product_description] is not a string; what it
    throws is always a [TypeError].  In particular an object whose
    [category_id] is not numeric never makes it throw, whatever its other
    fields. *)
Theorem validateNewProduct_throws_exactly :
  forall (DB : Type) (w : world DB) (v : value),
    printable_payload v = true ->
    ((exists e w', ProductValidator.validateNewProduct v w = (Throw e, w'))
     <-> throws_on v)
    /\ (forall e w', ProductValidator.validateNewProduct v w = (Throw e, w') ->
          exists m, e = TypeError m).
Proof.
  intros DB w v Hp.
  destruct v as [| |b|x|s|l|fields];
    try (rewrite validate_primitive by (intros; discriminate);
         split; [split; [intros (e & w' & H); discriminate H | intros []]
                | intros e w' H; discriminate H]).
  - rewrite validateNewProduct_undefined. split.
    + split; [easy | intros _; eauto].
    + intros e w' H. injection H as <- _. eauto.
  - rewrite validateNewProduct_null. split.
    + split; [easy | intros _; eauto].
    + intros e w' H. injection H as <- _. eauto.
  - destruct (validate_object_cases fields w)
      as [[Hwf E]|[E|[[Ht [m E]]|(k & e & Hk & He & _)]]].
    + rewrite E. split; [|intros e w' H; discriminate H].
      split; [intros (e & w' & H); discriminate H|].
      intros Ht. destruct (throws_on_throws fields w Ht) as [m E'].
      rewrite E in E'. discriminate E'.
    + rewrite E. split; [|intros e w' H; discriminate H].
      split; [intros (e & w' & H); discriminate H|].
      intros Ht. destruct (throws_on_throws fields w Ht) as [m E'].
      rewrite E in E'. discriminate E'.
    + rewrite E. split.
      * split; [intros _; exact Ht | intros _; eauto].
      * intros e w' H. injection H as <- _. eauto.
    + now destruct (printable_fields_convert fields Hp k e Hk).
Qed.

(** X3: the validator reads the five validated properties of an object and
    nothing else: two objects that agree on them, whatever other properties
    they carry (an [id], say), get the same outcome, product and log. *)
Theorem validateNewProduct_reads_five_fields :
  forall (DB : Type) (w : world DB) (f1 f2 : list (string * value)),
    (forall k, In k validated_keys -> field f1 k = field f2 k) ->
    ProductValidator.validateNewProduct (VObj f1) w
    = ProductValidator.validateNewProduct (VObj f2) w.
Proof.
  intros DB w f1 f2 H.
  assert (H1 := H "category_id"). assert (H2 := H "product_name").
  assert (H3 := H "product_description"). assert (H4 := H "product_stock").
  assert (H5 := H "product_price"). clear H.
  unfold validated_keys in *. simpl In in *.
  rewrite !validateNewProduct_run. unfold normalized.
  rewrite H1, H2, H3, H4, H5 by tauto. reflexivity.
Qed.

Lemma validateNewProduct_reads_five_fields_witness :
  ProductValidator.validateNewProduct
    (VObj (("id", VNum (Num.of_N 99)) :: widget)) (initial_world Storage.empty)
  = ProductValidator.validateNewProduct (VObj widget) (initial_world Storage.empty).
Proof.
  apply (validateNewProduct_reads_five_fields Storage.db
           (initial_world Storage.empty)
           (("id", VNum (Num.of_N 99)) :: widget) widget).
  intros k Hk. simpl in Hk.
  destruct Hk as [<-|[<-|[<-|[<-|[<-|[]]]]]]; reflexivity.
Defined.

Lemma validateNewProduct_throws_exactly_witness :
  printable_payload
    (VObj [("category_id", VStr "1"); ("product_name", VNum (Num.of_N 5))]) = true
  /\ throws_on (VObj [("category_id", VStr "1"); ("product_name", VNum (Num.of_N 5))])
  /\ exists e w',
       ProductValidator.validateNewProduct
         (VObj [("category_id", VStr "1"); ("product_name", VNum (Num.of_N 5))])
         (initial_world Storage.empty) = (Throw e, w').
Proof.
  assert (H : throws_on (VObj [("category_id", VStr "1");
                               ("product_name", VNum (Num.of_N 5))])).
  { split; [exists "1"; split; reflexivity | left; intros s; discriminate]. }
  split; [reflexivity|]. split; [exact H|].
  exact (proj2 (proj1 (validateNewProduct_throws_exactly Storage.db
                         (initial_world Storage.empty)
                         (VObj [("category_id", VStr "1");
                                ("product_name", VNum (Num.of_N 5))])
                         eq_refl)) H).
Defined.

(** An accepted payload is a well-formed object, and the product is the
    normalized one. *)
Lemma accepted_normalized {DB} (w w' : world DB) (v : value) (p : Product) :
  ProductValidator.validateNewProduct v w = (Return (Some p), w') ->
  exists fields, v = VObj fields /\ well_formed fields /\ p = normalized fields.
Proof.
  intros H. destruct v as [| |b|x|s|l|fields];
    try (rewrite validate_primitive in H by (intros; discriminate);
         discriminate H);
    try discriminate H.
  exists fields.
  destruct (validate_object_cases fields w)
    as [[Hwf E]|[E|[[_ [m E]]|(k & e & _ & _ & E)]]];
    rewrite E in H; try discriminate H.
  injection H as <- _. split; [reflexivity|]. split; [exact Hwf | reflexivity].
Qed.

(** ** The numeric fields of a validated product *)

Lemma digits_no_sign (s t : string) :
  Str.all_digits (("-" ++ s) ++ t)%string = false.
Proof. reflexivity. Qed.

Lemma numeric_value_finite (v : value) :
  prints_as Str.all_digits v ->
  exists x, JS.Number v = Return x
            /\ x <> NaN /\ x <> Infinity true
            /\ forall m d, x = Finite true m d -> m = 0.
Proof.
  intros (s & Hs & Ds).
  destruct (ToString_Number v s Hs) as (p & _ & -> & Hn).
  exists (JS.ToNumber p). split; [exact Hn|].
  destruct p as [| |b|x|t]; try discriminate Ds.
  - destruct b; discriminate Ds.
  - destruct x as [|neg|neg m d];
      [discriminate Ds | destruct neg; discriminate Ds|].
    cbn [JS.ToNumber]. split; [discriminate|]. split; [discriminate|].
    intros m' d' [= -> -> ->].
    cbn [JS.text_of_primitive NumberToString.to_string] in Ds.
    destruct (m' =? 0) eqn:E; [now apply N.eqb_eq in E | discriminate Ds].
  - cbn [JS.ToNumber JS.text_of_primitive] in *.
    destruct (all_digits_to_N t Ds) as [k Hk].
    rewrite (of_string_digits t k Ds Hk).
    destruct (round_sign false k 0) as [->|(m' & d' & ->)];
      repeat split; discriminate.
Qed.

(** X4: in every product the validator returns, [category_id] and
    [product_stock] are numbers that are neither [NaN] nor negative.
    [product_price] has no such guarantee: a price written with a currency
    symbol and a thousands separator is accepted and becomes [NaN]. *)
Theorem validated_numbers_are_not_NaN :
  forall (DB : Type) (w : world DB),
    (forall v p w',
       ProductValidator.validateNewProduct v w = (Return (Some p), w') ->
       (category_id p <> NaN /\ category_id p <> Infinity true
        /\ forall m d, category_id p = Finite true m d -> m = 0)
       /\ (product_stock p <> NaN /\ product_stock p <> Infinity true
           /\ forall m d, product_stock p = Finite true m d -> m = 0))
    /\ (exists fields p,
          ProductValidator.validateNewProduct (VObj fields) w = (Return (Some p), w)
          /\ product_price p = NaN).
Proof.
  intros DB w. split.
  - intros v p w' H.
    destruct (accepted_normalized w w' v p H) as (fields & _ & Hwf & ->).
    destruct Hwf as (Hc & _ & _ & Hs & _).
    unfold normalized, number_of; cbn [category_id product_stock].
    destruct (numeric_value_finite _ Hc) as (x1 & -> & H1).
    destruct (numeric_value_finite _ Hs) as (x2 & -> & H2).
    split; assumption.
  - exists [ ("category_id", VStr "1"); ("product_name", VStr "Widget");
             ("product_description", VStr "A widget");
             ("product_stock", VStr "10"); ("product_price", VStr "$1,000.00") ].
    eexists. split; vm_compute; reflexivity.
Qed.

Lemma validated_numbers_are_not_NaN_witness :
  category_id (normalized widget) <> NaN.
Proof.
  assert (H : ProductValidator.validateNewProduct (VObj widget)
                 (initial_world Storage.empty)
               = (Return (Some (normalized widget)), initial_world Storage.empty))
    by (vm_compute; reflexivity).
  exact (proj1 (proj1 (proj1 (validated_numbers_are_not_NaN Storage.db
                                (initial_world Storage.empty))
                         (VObj widget) (normalized widget)
                         (initial_world Storage.empty) H))).
Defined.

(** ** The text fields of a validated product *)

Lemma entity_plain (c : ascii) :
  escapable c = false -> Validator.entity c = String c EmptyString.
Proof.
  destruct c as [[] [] [] [] [] [] [] []]; vm_compute; intros H;
    try discriminate H; reflexivity.
Qed.

Lemma entity_long (c : ascii) :
  escapable c = true -> (4 <= String.length (Validator.entity c))%nat.
Proof.
  destruct c as [[] [] [] [] [] [] [] []]; vm_compute; intros H;
    try discriminate H; repeat constructor.
Qed.

Lemma entity_nonempty (c : ascii) : (1 <= String.length (Validator.entity c))%nat.
Proof.
  destruct (escapable c) eqn:E.
  - pose proof (entity_long c E). lia.
  - now rewrite (entity_plain c E).
Qed.

Lemma escape_plain (s : string) :
  Str.any escapable s = false -> Validator.escape_string s = s.
Proof.
  induction s as [|c r IH]; simpl; [reflexivity|].
  intros H. apply orb_false_iff in H. destruct H as [Hc Hr].
  now rewrite (entity_plain c Hc), (IH Hr).
Qed.

Lemma escape_length (s : string) :
  (String.length s <= String.length (Validator.escape_string s))%nat.
Proof.
  induction s as [|c r IH]; simpl; [lia|].
  rewrite length_append. pose proof (entity_nonempty c). lia.
Qed.

Lemma escape_longer (s : string) :
  Str.any escapable s = true ->
  (String.length s < String.length (Validator.escape_string s))%nat.
Proof.
  induction s as [|c r IH]; simpl; [discriminate|].
  intros H. rewrite length_append. pose proof (escape_length r).
  destruct (escapable c) eqn:E.
  - pose proof (entity_long c E). lia.
  - simpl in H. specialize (IH H). pose proof (entity_nonempty c). lia.
Qed.

Lemma escape_fixed_iff (s : string) :
  Validator.escape_string s = s <-> Str.any escapable s = false.
Proof.
  split; [|apply escape_plain].
  intros H. destruct (Str.any escapable s) eqn:E; [|reflexivity].
  pose proof (escape_longer s E) as Hl. rewrite H in Hl. lia.
Qed.

(** X5: the validator stores a name or a description as submitted exactly
    when the text holds none of the eight characters ampersand, double
    quote, apostrophe, [<], [>], slash, backslash and backquote; a text
    that holds one of them is stored strictly longer, and no text is ever
    stored shorter. *)
Theorem validated_text_kept_iff_plain :
  forall (DB : Type) (w w' : world DB) (fields : list (string * value))
         (p : Product) (n d : string),
    ProductValidator.validateNewProduct (VObj fields) w = (Return (Some p), w') ->
    field fields "product_name" = VStr n ->
    field fields "product_description" = VStr d ->
    product_name p = VStr (Validator.escape_string n)
    /\ product_description p = VStr (Validator.escape_string d)
    /\ (product_name p = VStr n <-> Str.any escapable n = false)
    /\ (product_description p = VStr d <-> Str.any escapable d = false)
    /\ (String.length n <= String.length (Validator.escape_string n))%nat
    /\ (String.length d <= String.length (Validator.escape_string d))%nat
    /\ (Str.any escapable n = true ->
        (String.length n < String.length (Validator.escape_string n))%nat)
    /\ (Str.any escapable d = true ->
        (String.length d < String.length (Validator.escape_string d))%nat).
Proof.
  intros DB w w' fields p n d H Hn Hd.
  destruct (accepted_normalized w w' _ p H) as (fields' & E & _ & ->).
  injection E as <-.
  unfold normalized; cbn [product_name product_description].
  rewrite Hn, Hd; cbn [text].
  split; [reflexivity|]. split; [reflexivity|].
  split.
  { rewrite <- escape_fixed_iff. split; [now intros [= ->] | now intros ->]. }
  split.
  { rewrite <- escape_fixed_iff. split; [now intros [= ->] | now intros ->]. }
  split; [apply escape_length|]. split; [apply escape_length|].
  split; apply escape_longer.
Qed.

Lemma validated_text_kept_iff_plain_witness :
  product_name (normalized widget) = VStr "Widget"
  /\ product_description (normalized widget) <> VStr "A <b>widget</b>".
Proof.
  destruct (validated_text_kept_iff_plain Storage.db
              (initial_world Storage.empty) (initial_world Storage.empty)
              widget (normalized widget) "Widget" "A <b>widget</b>"
              eq_refl eq_refl eq_refl) as (_ & _ & Hn & Hd & _).
  split.
  - apply (proj2 Hn). reflexivity.
  - intros E. apply (proj1 Hd) in E. discriminate E.
Defined.

(** ** Escaping loses nothing *)

Lemma uncons_escape (c : ascii) (r : string) :
  uncons_escaped (Validator.escape_string (String c r))
  = Some (c, Validator.escape_string r).
Proof.
  simpl. generalize (Validator.escape_string r). intros t.
  destruct c as [[] [] [] [] [] [] [] []]; reflexivity.
Qed.

Lemma escape_injective (a b : string) :
  Validator.escape_string a = Validator.escape_string b -> a = b.
Proof.
  revert b. induction a as [|c r IH]; intros [|c' r'] H.
  - reflexivity.
  - apply (f_equal uncons_escaped) in H. rewrite uncons_escape in H. discriminate H.
  - apply (f_equal uncons_escaped) in H. rewrite uncons_escape in H. discriminate H.
  - apply (f_equal uncons_escaped) in H. rewrite !uncons_escape in H.
    injection H as -> H. now rewrite (IH r' H).
Qed.

(** X6: escaping loses nothing: two accepted payloads whose products carry
    the same name were submitted with the same name, and likewise for the
    description; two different texts are never stored as the same text. *)
Theorem validated_text_injective :
  forall (DB : Type) (w w1 w2 : world DB) (f1 f2 : list (string * value))
         (p1 p2 : Product),
    ProductValidator.validateNewProduct (VObj f1) w = (Return (Some p1), w1) ->
    ProductValidator.validateNewProduct (VObj f2) w = (Return (Some p2), w2) ->
    (product_name p1 = product_name p2 ->
     field f1 "product_name" = field f2 "product_name")
    /\ (product_description p1 = product_description p2 ->
        field f1 "product_description" = field f2 "product_description").
Proof.
  intros DB w w1 w2 f1 f2 p1 p2 H1 H2.
  destruct (accepted_normalized w w1 _ p1 H1) as (g1 & E1 & Hwf1 & ->).
  destruct (accepted_normalized w w2 _ p2 H2) as (g2 & E2 & Hwf2 & ->).
  injection E1 as <-. injection E2 as <-.
  destruct Hwf1 as (_ & (n1 & Hn1 & _) & (d1 & Hd1 & _) & _).
  destruct Hwf2 as (_ & (n2 & Hn2 & _) & (d2 & Hd2 & _) & _).
  unfold normalized; cbn [product_name product_description].
  rewrite Hn1, Hn2, Hd1, Hd2; cbn [text].
  split; intros [= E]; f_equal; now apply escape_injective.
Qed.

Lemma validated_text_injective_witness :
  field widget "product_name" = field (("id", VNull) :: widget) "product_name".
Proof.
  exact (proj1 (validated_text_injective Storage.db
                  (initial_world Storage.empty) (initial_world Storage.empty)
                  (initial_world Storage.empty)
                  widget (("id", VNull) :: widget)
                  (normalized widget) (normalized (("id", VNull) :: widget))
                  eq_refl eq_refl) eq_refl).
Defined.

(** ** What the validator writes to the console *)

(** X13: on a payload whose fields convert to text, [validateNewProduct]
    writes nothing when it returns a product, the one line
    [Validation failed] when it returns [undefined], the one line
    [Parameter is null] when it throws on [null], and nothing when it throws
    on another payload; it never reaches storage or the response. *)
Theorem validateNewProduct_log :
  forall (DB : Type) (w : world DB) (v : value),
    printable_payload v = true ->
    let out := ProductValidator.validateNewProduct v w in
    store (snd out) = store w
    /\ queries (snd out) = queries w
    /\ res (snd out) = res w
    /\ console (snd out)
       = (console w
          ++ match fst out, v with
             | Return (Some _), _ => []
             | Return None, _ => ["validateNewProduct(): Validation failed"]
             | Throw _, VNull => ["validateNewProduct(): Parameter is null"]
             | Throw _, _ => []
             end)%list.
Proof.
  intros DB w v _ out. subst out.
  destruct v as [| |b|x|s|l|fields];
    try (rewrite validate_primitive by (intros; discriminate);
         simpl; now repeat split).
  - rewrite validateNewProduct_undefined. simpl. rewrite app_nil_r. now repeat split.
  - rewrite validateNewProduct_null. simpl. now repeat split.
  - destruct (validate_object_cases fields w)
      as [[_ E]|[E|[[_ [m E]]|(k & e & _ & _ & E)]]];
      rewrite E; simpl; rewrite ?app_nil_r; now repeat split.
Qed.

Lemma validateNewProduct_log_witness :
  printable_payload VNull = true
  /\ console (snd (ProductValidator.validateNewProduct VNull
                     (initial_world Storage.empty)))
     = ["validateNewProduct(): Parameter is null"].
Proof.
  split; [reflexivity|].
  exact (proj2 (proj2 (proj2 (validateNewProduct_log Storage.db
                                (initial_world Storage.empty) VNull eq_refl)))).
Defined.

(** ** dataAccess/productData.js: one call, no retry *)

Section LayersFacts.
Context {DB : Type}.
Variable prisma : request -> DB -> outcome value * DB.
Variable vid : value -> value.

(** The run of a data-access function: it returns; it has made the one call
    [q]; storage is what that call left; the response is untouched; the
    value is the ORM's answer and nothing is logged, or the call threw, the
    value is [undefined] and one line is logged. *)
Lemma guarded_run (label : string) (q : request) (w : world DB) :
  exists v w',
    ProductData.guarded prisma label q w = (Return v, w')
    /\ res w' = res w
    /\ queries w' = (queries w ++ [q])%list
    /\ store w' = snd (prisma q (store w))
    /\ match fst (prisma q (store w)) with
       | Return a => v = a /\ console w' = console w
       | Throw e =>
           v = VUndefined
           /\ console w' = (console w ++ [(label ++ " " ++ message e)%string])%list
       end.
Proof.
  destruct (prisma q (store w)) as [[a|e] db] eqn:H.
  - rewrite (guarded_returns prisma label q w a db H).
    eexists; eexists. split; [reflexivity|]. now repeat split.
  - rewrite (guarded_throws prisma label q w e db H).
    eexists; eexists. split; [reflexivity|]. now repeat split.
Qed.

(** A service call that throws, on a response nothing was set on: the
    handler answers 500 with the message of the error as text. *)
Lemma respond_throws (c : M DB value) (w w' : world DB) (e : error) :
  c w = (Throw e, w') -> res w' = fresh_response ->
  ProductController.respond c w
  = (Return tt,
     with_response
       (mkResponse 500 None (Some (mkSent 500 None (Text (message e))))) w').
Proof.
  intros Hc Hr.
  unfold ProductController.respond, try_catch, bind, Res.set_status, Res.send,
    Res.send_payload.
  rewrite Hc. simpl. now rewrite Hr.
Qed.

(** A service call that throws, on a response already sent: the [catch]
    sets the status field and [res.send] throws out of the handler. *)
Lemma respond_throws_after_sent (c : M DB value) (w w' : world DB) (e : error) r :
  c w = (Throw e, w') -> sent (res w') = Some r ->
  ProductController.respond c w
  = (Throw Res.headers_sent_error,
     with_response (mkResponse 500 (statusMessage (res w')) (Some r)) w').
Proof.
  intros Hc Hs.
  unfold ProductController.respond, try_catch, bind, Res.set_status, Res.send,
    Res.send_payload.
  rewrite Hc. simpl. now rewrite Hs.
Qed.

Lemma respond_guarded (label : string) (q : request) (c : M DB value)
    (w : world DB) :
  (c w = ProductData.guarded prisma label q w) ->
  res w = fresh_response ->
  exists v w',
    ProductController.respond c w = (Return tt, w')
    /\ res w' = ok_json v
    /\ queries w' = (queries w ++ [q])%list
    /\ store w' = snd (prisma q (store w))
    /\ match fst (prisma q (store w)) with
       | Return a => v = a /\ console w' = console w
       | Throw e =>
           v = VUndefined
           /\ console w' = (console w ++ [(label ++ " " ++ message e)%string])%list
       end.
Proof.
  intros Hc Hr.
  destruct (guarded_run label q w) as (v & w1 & Hrun & Hres & Hq & Hs & Hv).
  rewrite <- Hc in Hrun.
  exists v. eexists. split.
  - apply (respond_fresh c w w1 v Hrun). now rewrite Hres.
  - simpl. now repeat split.
Qed.

End LayersFacts.

(** X7: each of the four data-access functions makes exactly one call on
    the ORM, whatever its outcome: no retry, no second query.  It leaves
    storage as that call left it and the response untouched; when the call
    answers, the function returns the answer as it is and logs nothing. *)
Theorem data_access_single_call :
  forall (DB : Type) (prisma : request -> DB -> outcome value * DB)
         (w : world DB) (f : M DB value) (q : request),
    (f = ProductData.getProducts prisma /\ q = FindMany None)
    \/ (exists i, f = ProductData.getProductById prisma i
                  /\ q = FindUnique ("id", i))
    \/ (exists c, f = ProductData.getProductsByCatId prisma c
                  /\ q = FindMany (Some ("category_id", c)))
    \/ (exists p, f = ProductData.createProduct prisma p
                  /\ q = Create (ProductData.create_data p)) ->
    exists v w',
      f w = (Return v, w')
      /\ queries w' = (queries w ++ [q])%list
      /\ store w' = snd (prisma q (store w))
      /\ res w' = res w
      /\ (forall a, fst (prisma q (store w)) = Return a ->
            v = a /\ console w' = console w).
Proof.
  intros DB prisma w f q H.
  assert (Hg : exists label, f = ProductData.guarded prisma label q).
  { destruct H as [[-> ->]|[(i & -> & ->)|[(c & -> & ->)|(p & -> & ->)]]];
      eexists; reflexivity. }
  destruct Hg as [label ->].
  destruct (guarded_run prisma label q w) as (v & w' & Hrun & Hres & Hq & Hs & Hv).
  exists v, w'. split; [exact Hrun|]. split; [exact Hq|]. split; [exact Hs|].
  split; [exact Hres|]. intros a Ha. now rewrite Ha in Hv.
Qed.

Lemma data_access_single_call_witness :
  exists v w',
    ProductData.getProductsByCatId Storage.prisma (VNum (Num.of_N 4))
      (initial_world Storage.empty) = (Return v, w')
    /\ queries w' = [FindMany (Some ("category_id", VNum (Num.of_N 4)))].
Proof.
  destruct (data_access_single_call Storage.db Storage.prisma
              (initial_world Storage.empty)
              (ProductData.getProductsByCatId Storage.prisma (VNum (Num.of_N 4)))
              (FindMany (Some ("category_id", VNum (Num.of_N 4)))))
    as (v & w' & Hrun & Hq & _).
  - right; right; left. exists (VNum (Num.of_N 4)). now split.
  - exists v, w'. split; [exact Hrun | exact Hq].
Defined.

(** X8: on a response nothing was set on, [GET /] always answers status 200
    and returns normally, whatever the ORM does: the [catch] that answers
    500 is never reached.  The body is what [findMany] answered, passed
    through the three layers unchanged, or empty when the call threw; one
    ORM call is made. *)
Theorem get_all_always_200 :
  forall (DB : Type) (prisma : request -> DB -> outcome value * DB)
         (req : http_request) (w : world DB),
    res w = fresh_response ->
    exists v w',
      ProductController.get_all prisma req w = (Return tt, w')
      /\ res w' = ok_json v
      /\ queries w' = (queries w ++ [FindMany None])%list
      /\ match fst (prisma (FindMany None) (store w)) with
         | Return a => v = a /\ console w' = console w
         | Throw e => v = VUndefined
         end.
Proof.
  intros DB prisma req w Hr.
  destruct (respond_guarded prisma "DB Error - get all products: " (FindMany None)
              (ProductService.getProducts prisma) w
              (service_getProducts_eq prisma w) Hr)
    as (v & w' & Hrun & Hres & Hq & _ & Hv).
  exists v, w'. split; [exact Hrun|]. split; [exact Hres|]. split; [exact Hq|].
  destruct (fst (prisma (FindMany None) (store w))); [exact Hv | apply Hv].
Qed.

Lemma get_all_always_200_witness :
  res (initial_world Storage.empty) = fresh_response
  /\ exists v w',
       ProductController.get_all Storage.prisma (mkRequest [] VUndefined)
         (initial_world Storage.empty) = (Return tt, w')
       /\ res w' = ok_json v.
Proof.
  split; [reflexivity|].
  destruct (get_all_always_200 Storage.db Storage.prisma (mkRequest [] VUndefined)
              (initial_world Storage.empty) eq_refl)
    as (v & w' & Hrun & Hres & _).
  exists v, w'. split; [exact Hrun | exact Hres].
Defined.

(** X9: on a response nothing was set on, [GET /:id] always answers status
    200 and returns normally, for every parameter and whatever the ORM
    does.  For an id that [validateId] accepts, the body is what the one
    [findUnique] call on the validated id answered, a row or [null], or is
    empty when the call threw; a missing row is thus a 200 with [null], not
    a 404.  For an id it rejects, no ORM call is made. *)
Theorem get_by_id_always_200 :
  forall (DB : Type) (prisma : request -> DB -> outcome value * DB)
         (vid : value -> value) (req : http_request) (w : world DB),
    res w = fresh_response ->
    exists v w',
      ProductController.get_by_id prisma vid req w = (Return tt, w')
      /\ res w' = ok_json v
      /\ (JS.truthy (vid (param req "id")) = true ->
          queries w' = (queries w ++ [FindUnique ("id", vid (param req "id"))])%list
          /\ match fst (prisma (FindUnique ("id", vid (param req "id"))) (store w)) with
             | Return a => v = a /\ console w' = console w
             | Throw e => v = VUndefined
             end)
      /\ (JS.truthy (vid (param req "id")) = false ->
          queries w' = queries w /\ store w' = store w).
Proof.
  intros DB prisma vid req w Hr.
  destruct (JS.truthy (vid (param req "id"))) eqn:Hv.
  - destruct (respond_guarded prisma "DB Error - get product by id: "
                (FindUnique ("id", vid (param req "id")))
                (ProductService.getProductById prisma vid (param req "id")) w
                (service_getProductById_valid prisma vid _ w Hv) Hr)
      as (v & w' & Hrun & Hres & Hq & _ & Ha).
    exists v, w'. split; [exact Hrun|]. split; [exact Hres|].
    split; [|discriminate]. intros _. split; [exact Hq|].
    destruct (fst (prisma (FindUnique ("id", vid (param req "id"))) (store w)));
      [exact Ha | apply Ha].
  - exists (VStr "Invalid product id"). eexists. split.
    + unfold ProductController.get_by_id.
      apply respond_fresh;
        [now apply service_getProductById_invalid | exact Hr].
    + split; [reflexivity|]. split; [discriminate|]. intros _. now split.
Qed.

Lemma get_by_id_always_200_witness :
  res (initial_world Storage.empty) = fresh_response
  /\ exists w',
       ProductController.get_by_id Storage.prisma validateId
         (mkRequest [("id", VStr "999")] VUndefined) (initial_world Storage.empty)
       = (Return tt, w')
       /\ res w' = ok_json VNull.
Proof.
  split; [reflexivity|].
  destruct (get_by_id_always_200 Storage.db Storage.prisma validateId
              (mkRequest [("id", VStr "999")] VUndefined)
              (initial_world Storage.empty) eq_refl)
    as (v & w' & Hrun & Hres & Hvalid & _).
  destruct (Hvalid eq_refl) as [_ Ha]. simpl in Ha. destruct Ha as [-> _].
  exists w'. split; [exact Hrun | exact Hres].
Defined.

(** X10: on a response nothing was set on and with the parameter present,
    [GET /bycat/:catId] always answers status 200 and returns normally.  For
    a category id that [validateId] accepts, the body is what the one
    [findMany] call filtered on the validated id answered, or is empty when
    the call threw; for one it rejects, no ORM call is made. *)
Theorem get_by_cat_always_200 :
  forall (DB : Type) (prisma : request -> DB -> outcome value * DB)
         (vid : value -> value) (req : http_request) (w : world DB),
    res w = fresh_response ->
    param req "catId" <> VUndefined ->
    exists v w',
      ProductController.get_by_cat prisma vid req w = (Return tt, w')
      /\ res w' = ok_json v
      /\ (JS.truthy (vid (param req "catId")) = true ->
          queries w'
          = (queries w ++ [FindMany (Some ("category_id", vid (param req "catId")))])%list
          /\ match fst (prisma (FindMany (Some ("category_id", vid (param req "catId"))))
                          (store w)) with
             | Return a => v = a /\ console w' = console w
             | Throw e => v = VUndefined
             end)
      /\ (JS.truthy (vid (param req "catId")) = false ->
          queries w' = queries w /\ store w' = store w).
Proof.
  intros DB prisma vid req w Hr Hd.
  assert (Hrun0 : ProductController.get_by_cat prisma vid req w
                  = ProductController.respond
                      (ProductService.getProductsByCatId prisma vid (param req "catId")) w).
  { unfold ProductController.get_by_cat. now rewrite (typeof_undefined _ Hd). }
  rewrite Hrun0.
  destruct (JS.truthy (vid (param req "catId"))) eqn:Hv.
  - destruct (respond_guarded prisma "DB Error - get products by category: "
                (FindMany (Some ("category_id", vid (param req "catId"))))
                (ProductService.getProductsByCatId prisma vid (param req "catId")) w
                (service_getProductsByCatId_valid prisma vid _ w Hv) Hr)
      as (v & w' & Hrun & Hres & Hq & _ & Ha).
    exists v, w'. split; [exact Hrun|]. split; [exact Hres|].
    split; [|discriminate]. intros _. split; [exact Hq|].
    destruct (fst (prisma (FindMany (Some ("category_id", vid (param req "catId"))))
                     (store w))); [exact Ha | apply Ha].
  - exists (VStr "Invalid product id"). eexists. split.
    + apply respond_fresh;
        [now apply service_getProductsByCatId_invalid | exact Hr].
    + split; [reflexivity|]. split; [discriminate|]. intros _. now split.
Qed.

Lemma get_by_cat_always_200_witness :
  res (initial_world Storage.empty) = fresh_response
  /\ param (mkRequest [("catId", VStr "4")] VUndefined) "catId" <> VUndefined
  /\ exists w',
       ProductController.get_by_cat Storage.prisma validateId
         (mkRequest [("catId", VStr "4")] VUndefined) (initial_world Storage.empty)
       = (Return tt, w')
       /\ res w' = ok_json (VArr []).
Proof.
  assert (Hd : param (mkRequest [("catId", VStr "4")] VUndefined) "catId"
               <> VUndefined) by discriminate.
  split; [reflexivity|]. split; [exact Hd|].
  destruct (get_by_cat_always_200 Storage.db Storage.prisma validateId
              (mkRequest [("catId", VStr "4")] VUndefined)
              (initial_world Storage.empty) eq_refl Hd)
    as (v & w' & Hrun & Hres & Hvalid & _).
  destruct (Hvalid eq_refl) as [_ Ha]. simpl in Ha. destruct Ha as [-> _].
  exists w'. split; [exact Hrun | exact Hres].
Defined.

(** ** The insert flow of readme.md *)

Section PostFacts.
Context {DB : Type}.
Variable prisma : request -> DB -> outcome value * DB.

Lemma post_with_body (req : http_request) (w : world DB) (text : string) :
  req_body req <> VUndefined ->
  JS.ToString (req_body req) = Return text ->
  ProductController.post prisma req w
  = ProductController.respond
      (ProductService.addNewProduct prisma (req_body req))
      (logged ("product data sent:" ++ ProductController.newline ++ " " ++ text) w).
Proof.
  intros Hd Ht. unfold ProductController.post.
  now rewrite (typeof_undefined _ Hd), Ht.
Qed.

(** A body that does not convert to text: the handler throws on its log
    line, before the [try] block, and nothing is answered. *)
Lemma post_unprintable_body (req : http_request) (w : world DB) (e : error) :
  req_body req <> VUndefined ->
  JS.ToString (req_body req) = Throw e ->
  ProductController.post prisma req w = (Throw e, w).
Proof.
  intros Hd Ht. unfold ProductController.post.
  now rewrite (typeof_undefined _ Hd), Ht.
Qed.

(** The lines the validator writes, on any payload. *)
Lemma validateNewProduct_console (form : value) (w : world DB) :
  console (snd (ProductValidator.validateNewProduct form w))
  = (console w
     ++ match fst (ProductValidator.validateNewProduct form w), form with
        | Return (Some _), _ => []
        | Return None, _ => ["validateNewProduct(): Validation failed"]
        | Throw _, VNull => ["validateNewProduct(): Parameter is null"]
        | Throw _, _ => []
        end)%list.
Proof.
  destruct form as [| |b|x|s|l|fields];
    try (rewrite validate_primitive by (intros; discriminate); reflexivity).
  - rewrite validateNewProduct_undefined. simpl. now rewrite app_nil_r.
  - rewrite validateNewProduct_null. reflexivity.
  - destruct (validate_object_cases fields w)
      as [[_ E]|[E|[[_ [m E]]|(k & e & _ & _ & E)]]];
      rewrite E; simpl; rewrite ?app_nil_r; reflexivity.
Qed.

Lemma addNewProduct_run (form : value) (w : world DB) :
  match ProductValidator.validateNewProduct form w with
  | (Return (Some p), w1) =>
      ProductService.addNewProduct prisma form w
      = ProductData.guarded prisma "DB Error - create product: "
          (Create (ProductData.create_data p)) w1
  | (Return None, w1) =>
      ProductService.addNewProduct prisma form w
      = (Return (VStr "invalid product data"), w1)
  | (Throw e, w1) =>
      ProductService.addNewProduct prisma form w = (Throw e, w1)
  end.
Proof.
  destruct (ProductValidator.validateNewProduct form w) as [[[p|]|e] w1] eqn:E;
    unfold ProductService.addNewProduct; unfold bind at 1; rewrite E;
    [apply bind_ret_id | reflexivity | reflexivity].
Qed.

End PostFacts.

(** X11: for a body that is present and converts to text, and on a
    response nothing was set on, [POST /] always returns normally and answers
    once, after logging the body as text: the console holds that line, then
    what the validator and data access wrote.  When the validator returns a
    product, one [create] call is made with the five validated fields and
    the answer is 200 with the row the ORM returned, nothing more being
    logged, or with an empty body when the call threw, the error being
    logged.  When the validator returns [undefined], the answer is 200 with
    the string [invalid product data], storage is not reached and the line
    [Validation failed] is logged.  When the validator throws, the answer is
    500 with the message of the error as text, storage is not reached, and
    only a [null] body adds a line to the log. *)
Theorem post_outcomes :
  forall (DB : Type) (prisma : request -> DB -> outcome value * DB)
         (req : http_request) (w : world DB),
    req_body req <> VUndefined ->
    printable_payload (req_body req) = true ->
    res w = fresh_response ->
    exists text : string,
      JS.ToString (req_body req) = Return text
      /\ let line := ("product data sent:" ++ ProductController.newline ++ " "
                      ++ text)%string in
         let w1 := logged line w in
         let out := ProductController.post prisma req w in
         fst out = Return tt
         /\ match ProductValidator.validateNewProduct (req_body req) w1 with
            | (Return (Some p), _) =>
                queries (snd out)
                = (queries w ++ [Create (ProductData.create_data p)])%list
                /\ JS.lookup "id" (ProductData.create_data p) = None
                /\ exists v,
                     res (snd out) = ok_json v
                     /\ match fst (prisma (Create (ProductData.create_data p))
                                     (store w)) with
                        | Return a =>
                            v = a /\ console (snd out) = (console w ++ [line])%list
                        | Throw e =>
                            v = VUndefined
                            /\ console (snd out)
                               = (console w
                                  ++ [line;
                                      ("DB Error - create product: " ++ " "
                                       ++ message e)%string])%list
                        end
            | (Return None, _) =>
                queries (snd out) = queries w
                /\ store (snd out) = store w
                /\ res (snd out) = ok_json (VStr "invalid product data")
                /\ console (snd out)
                   = (console w
                      ++ [line; "validateNewProduct(): Validation failed"])%list
            | (Throw e, _) =>
                queries (snd out) = queries w
                /\ store (snd out) = store w
                /\ sent (res (snd out)) = Some (mkSent 500 None (Text (message e)))
                /\ console (snd out)
                   = (console w
                      ++ line :: match req_body req with
                                 | VNull => ["validateNewProduct(): Parameter is null"]
                                 | _ => []
                                 end)%list
            end.
Proof.
  intros DB prisma req w Hd Hp Hr.
  assert (Hb : printable (req_body req) = true).
  { unfold printable_payload in Hp. now apply andb_true_iff in Hp. }
  destruct (printable_prints _ Hb) as [text Ht].
  exists text. split; [exact Ht|]. intros line w1 out. subst out.
  rewrite (post_with_body prisma req w text Hd Ht). fold line. fold w1.
  pose proof (validateNewProduct_quiet (req_body req) w1) as (Hs & Hq & Hres).
  pose proof (validateNewProduct_console (req_body req) w1) as Hc.
  pose proof (addNewProduct_run prisma (req_body req) w1) as Hrun.
  destruct (ProductValidator.validateNewProduct (req_body req) w1)
    as [[[p|]|e] w2] eqn:E; cbn [fst snd] in Hs, Hq, Hres, Hc.
  - assert (Hr2 : res w2 = fresh_response) by (now rewrite Hres).
    destruct (respond_guarded prisma "DB Error - create product: "
                (Create (ProductData.create_data p))
                (fun _ => ProductService.addNewProduct prisma (req_body req) w1)
                w2 Hrun Hr2)
      as (v & w3 & Hrun3 & Hres3 & Hq3 & _ & Ha).
    assert (Hresp : ProductController.respond
                      (ProductService.addNewProduct prisma (req_body req)) w1
                    = (Return tt, w3)).
    { unfold ProductController.respond, try_catch, bind in Hrun3 |- *.
      exact Hrun3. }
    rewrite Hresp. cbn [fst snd]. split; [reflexivity|].
    split; [now rewrite Hq3, Hq|]. split; [reflexivity|].
    exists v. split; [exact Hres3|].
    rewrite Hs in Ha. cbn [store logged w1] in Ha.
    rewrite Hc, app_nil_r in Ha. cbn [console logged w1] in Ha.
    destruct (fst (prisma (Create (ProductData.create_data p)) (store w)));
      destruct Ha as [-> ->]; split; try reflexivity.
    now rewrite <- app_assoc.
  - rewrite (respond_fresh _ w1 w2 _ Hrun) by (now rewrite Hres).
    cbn [fst snd]. split; [reflexivity|].
    split; [exact Hq|]. split; [exact Hs|]. split; [reflexivity|].
    cbn [console with_response]. rewrite Hc. cbn [console logged w1].
    now rewrite <- app_assoc.
  - rewrite (respond_throws _ w1 w2 e Hrun) by (now rewrite Hres).
    cbn [fst snd]. split; [reflexivity|].
    split; [exact Hq|]. split; [exact Hs|]. split; [reflexivity|].
    cbn [console with_response]. rewrite Hc. cbn [console logged w1].
    rewrite <- app_assoc. now destruct (req_body req).
Qed.

Lemma post_outcomes_witness :
  req_body (mkRequest [] VNull) <> VUndefined
  /\ printable_payload (req_body (mkRequest [] VNull)) = true
  /\ res (initial_world Storage.empty) = fresh_response
  /\ exists text,
       JS.ToString (req_body (mkRequest [] VNull)) = Return text
       /\ fst (ProductController.post Storage.prisma (mkRequest [] VNull)
                 (initial_world Storage.empty)) = Return tt.
Proof.
  assert (Hd : req_body (mkRequest [] VNull) <> VUndefined) by discriminate.
  split; [exact Hd|]. split; [reflexivity|]. split; [reflexivity|].
  destruct (post_outcomes Storage.db Storage.prisma (mkRequest [] VNull)
              (initial_world Storage.empty) Hd eq_refl eq_refl)
    as (text & Ht & Hfst & _).
  exists text. split; [exact Ht | exact Hfst].
Defined.

(** X12: when the body is missing, [POST /] sends status 400 with the body
    [{content: "error"}] and, lacking a [return], goes on: it logs the body
    as [undefined] and calls the service, whose validator throws on reading
    a property of [undefined]; the [catch] sets the status field to 500 and
    [res.send] throws out of the handler, the response being sent already.
    The client keeps the 400 and storage is not reached. *)
Theorem post_missing_body :
  forall (DB : Type) (prisma : request -> DB -> outcome value * DB)
         (req : http_request) (w : world DB),
    req_body req = VUndefined ->
    sent (res w) = None ->
    let out := ProductController.post prisma req w in
    fst out = Throw Res.headers_sent_error
    /\ sent (res (snd out)) = sent (bad_request_sent "Bad Request - missing product data")
    /\ statusCode (res (snd out)) = 500%Z
    /\ queries (snd out) = queries w
    /\ store (snd out) = store w
    /\ console (snd out)
       = (console w
          ++ [("product data sent:" ++ ProductController.newline ++ " undefined")%string])%list.
Proof.
  intros DB prisma req w Hb Hs out.
  set (w5 := logged ("product data sent:" ++ ProductController.newline ++ " undefined")
               (with_response (bad_request_sent "Bad Request - missing product data") w)).
  assert (Hout : out
                 = (Throw Res.headers_sent_error,
                    with_response
                      (mkResponse 500 (statusMessage (res w5)) (sent (res w5))) w5)).
  { subst out. unfold ProductController.post. rewrite Hb. simpl JS.typeof. cbv iota.
    unfold bind at 1.
    rewrite (bad_request_fresh "Bad Request - missing product data" w Hs).
    unfold bind at 1, lift at 1. cbv beta iota.
    unfold bind at 1, console_log at 1.
    assert (Hrun : ProductService.addNewProduct prisma VUndefined w5
                   = (Throw (TypeError
                        "Cannot read properties of undefined (reading 'category_id')"), w5))
      by reflexivity.
    exact (respond_throws_after_sent _ w5 w5 _ _ Hrun eq_refl). }
  rewrite Hout. simpl. now repeat split.
Qed.

Lemma post_missing_body_witness :
  req_body (mkRequest [] VUndefined) = VUndefined
  /\ sent (res (initial_world Storage.empty)) = None
  /\ fst (ProductController.post Storage.prisma (mkRequest [] VUndefined)
            (initial_world Storage.empty)) = Throw Res.headers_sent_error.
Proof.
  split; [reflexivity|]. split; [reflexivity|].
  exact (proj1 (post_missing_body Storage.db Storage.prisma (mkRequest [] VUndefined)
                  (initial_world Storage.empty) eq_refl eq_refl)).
Defined.
